(** * Dynamic inventory from Terraform outputs

    A shallow embedding of [ansible/inventory/terraform_inventory.py]: the
    script runs [terraform output -json], decodes the text with [json.loads],
    reshapes the [vm_connection] output into an Ansible inventory and prints
    it with [json.dumps(inventory, indent=2)].

    Scope of the model.  Python objects are the JSON-shaped values below:
    [None], booleans, unbounded integers, strings, lists and insertion-ordered
    dicts.  Floating-point numbers are left out, and a string is a
    [String.string] whose characters stand for the code points U+0000 to
    U+00FF.  A text that leaves this fragment (a number with a fraction or
    an exponent, [NaN], [Infinity], an escape above U+00FF) is decoded to
    [Raise Unmodelled], which is not a Python exception: no statement below
    speaks about such a run.  The interpreter's limits on recursion depth
    and on the number of digits of an integer are not modelled either. *)

From Stdlib Require Import ZArith List String Ascii Bool Arith Lia.
From Stdlib Require Import Decimal DecimalFacts DecimalPos DecimalZ DecimalString.
Import ListNotations.
Local Open Scope string_scope.

(** ** Python objects *)

(** Keys of a dict: the hashable objects among the modelled values. *)
Inductive key : Type :=
| KStr (s : string)
| KInt (z : Z)
| KBool (b : bool)
| KNone.

#[warnings="-register-all"]
Inductive value : Type :=
| VNone
| VBool (b : bool)
| VInt (z : Z)
| VStr (s : string)
| VList (items : list value)
| VDict (entries : list (key * value)).

(** Exceptions the script can meet.  [FileNotFoundError], [PermissionError]
    and [UnicodeDecodeError] are what [subprocess.run] raises when the tool
    cannot be started or its output is not text. *)
Inductive exn : Type :=
| CalledProcessError (returncode : Z)
| JSONDecodeError
| FileNotFoundError
| PermissionError
| UnicodeDecodeError
| TypeError
| KeyError (k : string)
| AttributeError
| Unmodelled.

Inductive outcome (A : Type) : Type :=
| Return (a : A)
| Raise (e : exn).
Arguments Return {A} a.
Arguments Raise {A} e.

Definition bind {A B : Type} (m : outcome A) (k : A -> outcome B) : outcome B :=
  match m with
  | Return a => k a
  | Raise e => Raise e
  end.

Notation "x <- m ;; k" := (bind m (fun x => k))
  (at level 61, m at next level, right associativity).
Notation "' p <- m ;; k" := (bind m (fun p => k))
  (at level 61, p pattern, m at next level, right associativity).

(** Characters that cannot be written inside a string literal. *)
Definition dquote : ascii := "034"%char.
Definition newline : ascii := "010"%char.

Module Py.

(** [bool(o)] *)
Definition truthy (o : value) : bool :=
  match o with
  | VNone => false
  | VBool b => b
  | VInt z => negb (Z.eqb z 0)
  | VStr s => negb (String.eqb s "")
  | VList l => match l with [] => false | _ :: _ => true end
  | VDict d => match d with [] => false | _ :: _ => true end
  end.

(** Equality of keys as a dict sees it: [True == 1] and [False == 0]. *)
Definition key_eqb (a b : key) : bool :=
  match a, b with
  | KStr s, KStr t => String.eqb s t
  | KInt x, KInt y => Z.eqb x y
  | KBool x, KBool y => Bool.eqb x y
  | KInt x, KBool y => Z.eqb x (Z.b2z y)
  | KBool x, KInt y => Z.eqb (Z.b2z x) y
  | KNone, KNone => true
  | _, _ => false
  end.

Fixpoint lookup (k : key) (d : list (key * value)) : option value :=
  match d with
  | [] => None
  | (k', v) :: rest => if key_eqb k' k then Some v else lookup k rest
  end.

(** [d[k] = v] on the entries of a dict: an existing key keeps its place. *)
Fixpoint store (k : key) (v : value) (d : list (key * value))
  : list (key * value) :=
  match d with
  | [] => [(k, v)]
  | (k', v') :: rest =>
      if key_eqb k' k then (k', v) :: rest else (k', v') :: store k v rest
  end.

(** [needle in haystack] for strings. *)
Fixpoint substring_of (needle haystack : string) : bool :=
  String.prefix needle haystack ||
  match haystack with
  | EmptyString => false
  | String _ rest => substring_of needle rest
  end.

(** [name in o] for a string [name]. *)
Definition contains (o : value) (name : string) : outcome bool :=
  match o with
  | VDict d =>
      Return (match lookup (KStr name) d with Some _ => true | None => false end)
  | VList l =>
      Return (existsb (fun x => match x with
                                | VStr s => String.eqb s name
                                | _ => false
                                end) l)
  | VStr s => Return (substring_of name s)
  | VNone | VBool _ | VInt _ => Raise TypeError
  end.

(** [o[name]] for a string [name]. *)
Definition getitem (o : value) (name : string) : outcome value :=
  match o with
  | VDict d =>
      match lookup (KStr name) d with
      | Some v => Return v
      | None => Raise (KeyError name)
      end
  | _ => Raise TypeError
  end.

(** [o.get(name, default)] *)
Definition get (o : value) (name : string) (default : value) : outcome value :=
  match o with
  | VDict d =>
      Return (match lookup (KStr name) d with Some v => v | None => default end)
  | _ => Raise AttributeError
  end.

(** [hash(o)], as far as a dict needs it: lists and dicts are unhashable. *)
Definition hashable (o : value) : outcome key :=
  match o with
  | VNone => Return KNone
  | VBool b => Return (KBool b)
  | VInt z => Return (KInt z)
  | VStr s => Return (KStr s)
  | VList _ | VDict _ => Raise TypeError
  end.

(** [o.append(x)] *)
Definition append (x : value) (o : value) : outcome value :=
  match o with
  | VList l => Return (VList (l ++ [x]))
  | _ => Raise AttributeError
  end.

(** [o[k] = x] where [k] is any object. *)
Definition setitem (k x : value) (o : value) : outcome value :=
  match o with
  | VDict d => k' <- hashable k ;; Return (VDict (store k' x d))
  | VList _ => Raise TypeError
  | _ => Raise TypeError
  end.

(** The object [o] after [o[name]] has been mutated by [f]: the script
    holds the only reference to its inventory, so mutation of a nested
    object is a functional update along the path. *)
Definition within (name : string) (f : value -> outcome value) (o : value)
  : outcome value :=
  child <- getitem o name ;;
  child' <- f child ;;
  match o with
  | VDict d => Return (VDict (store (KStr name) child' d))
  | _ => Raise TypeError
  end.

End Py.

(** ** The [json] module, as far as the script uses it *)

Module json.

(** *** [json.dumps(o, indent=2)] *)

(** [int.__repr__] *)
Definition int_repr (z : Z) : string := NilEmpty.string_of_int (Z.to_int z).

Definition hexdigit (n : nat) : ascii :=
  nth n (list_ascii_of_string "0123456789abcdef") "0"%char.

(** The replacement of one character in [py_encode_basestring_ascii]:
    [ESCAPE_ASCII] matches the quote, the backslash and everything outside
    the range from space to tilde; [ESCAPE_DCT] has the short forms. *)
Definition escape_char (c : ascii) : string :=
  let n := nat_of_ascii c in
  if Ascii.eqb c dquote then String "\" (String dquote "")
  else if Ascii.eqb c "\" then "\\"
  else if Nat.eqb n 10 then "\n"
  else if Nat.eqb n 13 then "\r"
  else if Nat.eqb n 9 then "\t"
  else if Nat.eqb n 8 then "\b"
  else if Nat.eqb n 12 then "\f"
  else if Nat.leb 32 n && Nat.leb n 126 then String c ""
  else "\u00" ++ String (hexdigit (n / 16)) (String (hexdigit (n mod 16)) "").

Fixpoint escape (s : string) : string :=
  match s with
  | EmptyString => ""
  | String c rest => escape_char c ++ escape rest
  end.

Definition encode_basestring_ascii (s : string) : string :=
  String dquote (escape s ++ String dquote "").

(** A key that is not a string is printed as the text of its value. *)
Definition key_text (k : key) : string :=
  match k with
  | KStr s => s
  | KInt z => int_repr z
  | KBool true => "true"
  | KBool false => "false"
  | KNone => "null"
  end.

Fixpoint spaces (level : nat) : string :=
  match level with
  | O => ""
  | S n => "  " ++ spaces n
  end.

Definition newline_indent (level : nat) : string := String newline (spaces level).

(** [_iterencode] with [indent=2]: the item separator is a comma followed
    by [newline_indent], the key separator a colon and a space. *)
Fixpoint iterencode (level : nat) (o : value) : string :=
  match o with
  | VStr s => encode_basestring_ascii s
  | VNone => "null"
  | VBool true => "true"
  | VBool false => "false"
  | VInt z => int_repr z
  | VList [] => "[]"
  | VList items =>
      "[" ++ newline_indent (S level)
      ++ String.concat ("," ++ newline_indent (S level))
           (map (iterencode (S level)) items)
      ++ newline_indent level ++ "]"
  | VDict [] => "{}"
  | VDict entries =>
      "{" ++ newline_indent (S level)
      ++ String.concat ("," ++ newline_indent (S level))
           (map (fun kv => encode_basestring_ascii (key_text (fst kv))
                           ++ ": " ++ iterencode (S level) (snd kv)) entries)
      ++ newline_indent level ++ "}"
  end.

Definition dumps (o : value) : string := iterencode 0 o.

(** *** [json.loads(s)] *)

Definition is_ws (c : ascii) : bool :=
  let n := nat_of_ascii c in
  Nat.eqb n 32 || Nat.eqb n 9 || Nat.eqb n 10 || Nat.eqb n 13.

Fixpoint skip_ws (s : string) : string :=
  match s with
  | EmptyString => ""
  | String c rest => if is_ws c then skip_ws rest else s
  end.

Fixpoint strip_prefix (p s : string) : option string :=
  match p with
  | EmptyString => Some s
  | String a p' =>
      match s with
      | EmptyString => None
      | String b s' => if Ascii.eqb a b then strip_prefix p' s' else None
      end
  end.

Definition hexval (c : ascii) : option nat :=
  let n := nat_of_ascii c in
  if Nat.leb 48 n && Nat.leb n 57 then Some (n - 48)
  else if Nat.leb 97 n && Nat.leb n 102 then Some (n - 87)
  else if Nat.leb 65 n && Nat.leb n 70 then Some (n - 55)
  else None.

(** [_decode_uXXXX] *)
Definition decode_uXXXX (a b c d : ascii) : option nat :=
  match hexval a, hexval b, hexval c, hexval d with
  | Some x, Some y, Some z, Some w => Some (((x * 16 + y) * 16 + z) * 16 + w)
  | _, _, _, _ => None
  end.

(** The table [BACKSLASH]. *)
Definition unescape (c : ascii) : option ascii :=
  let n := nat_of_ascii c in
  if Ascii.eqb c dquote then Some dquote
  else if Ascii.eqb c "\" then Some "\"%char
  else if Ascii.eqb c "/" then Some "/"%char
  else if Ascii.eqb c "b" then Some (ascii_of_nat 8)
  else if Ascii.eqb c "f" then Some (ascii_of_nat 12)
  else if Ascii.eqb c "n" then Some (ascii_of_nat 10)
  else if Ascii.eqb c "r" then Some (ascii_of_nat 13)
  else if Ascii.eqb c "t" then Some (ascii_of_nat 9)
  else None.

Definition prepend (c : ascii) (r : outcome (string * string))
  : outcome (string * string) :=
  ' (s, rest) <- r ;; Return (String c s, rest).

(** [scanstring(s, end, strict=True)], started after the opening quote.
    An escape of a code point above U+00FF leaves the model. *)
Fixpoint scanstring (s : string) : outcome (string * string) :=
  match s with
  | EmptyString => Raise JSONDecodeError
  | String c r =>
      if Ascii.eqb c dquote then Return ("", r)
      else if Ascii.eqb c "\" then
        match r with
        | EmptyString => Raise JSONDecodeError
        | String esc r1 =>
            if Ascii.eqb esc "u" then
              match r1 with
              | String h1 (String h2 (String h3 (String h4 r2))) =>
                  match decode_uXXXX h1 h2 h3 h4 with
                  | None => Raise JSONDecodeError
                  | Some n =>
                      if Nat.ltb n 256 then prepend (ascii_of_nat n) (scanstring r2)
                      else Raise Unmodelled
                  end
              | _ => Raise JSONDecodeError
              end
            else
              match unescape esc with
              | Some ch => prepend ch (scanstring r1)
              | None => Raise JSONDecodeError
              end
        end
      else if Nat.ltb (nat_of_ascii c) 32 then Raise JSONDecodeError
      else prepend c (scanstring r)
  end.

Definition digit_of (c : ascii) : option (uint -> uint) :=
  match nat_of_ascii c - 48 with
  | 0 => if Nat.eqb (nat_of_ascii c) 48 then Some D0 else None
  | 1 => Some D1
  | 2 => Some D2
  | 3 => Some D3
  | 4 => Some D4
  | 5 => Some D5
  | 6 => Some D6
  | 7 => Some D7
  | 8 => Some D8
  | 9 => Some D9
  | _ => None
  end.

(** The longest run of decimal digits at the head of [s]. *)
Fixpoint digits (s : string) : uint * string :=
  match s with
  | EmptyString => (Nil, "")
  | String c r =>
      match digit_of c with
      | Some d => let (u, rest) := digits r in (d u, rest)
      | None => (Nil, s)
      end
  end.

Definition starts_with_digit (s : string) : bool :=
  match s with
  | EmptyString => false
  | String c _ => match digit_of c with Some _ => true | None => false end
  end.

(** The integer part of [NUMBER_RE]: an optional minus sign, then a zero
    or a digit from one to nine followed by digits. *)
Definition match_integer (s : string) : option (int * string) :=
  let (negative, body) :=
    match s with
    | String c r => if Ascii.eqb c "-" then (true, r) else (false, s)
    | EmptyString => (false, s)
    end in
  let sign := if negative then Neg else Pos in
  match body with
  | EmptyString => None
  | String c r =>
      if Ascii.eqb c "0" then Some (sign (D0 Nil), r)
      else if starts_with_digit body then
        let (u, rest) := digits body in Some (sign u, rest)
      else None
  end.

(** Whether the fraction or the exponent group of [NUMBER_RE] matches at
    the head of [s]: the number is then a float. *)
Definition float_follows (s : string) : bool :=
  match s with
  | String c r =>
      if Ascii.eqb c "." then starts_with_digit r
      else if Ascii.eqb c "e" || Ascii.eqb c "E" then
        match r with
        | String c' r' =>
            if Ascii.eqb c' "+" || Ascii.eqb c' "-" then starts_with_digit r'
            else starts_with_digit r
        | EmptyString => false
        end
      else false
  | EmptyString => false
  end.

(** [dict(pairs)]: a repeated key keeps its first place and its last value. *)
Definition dict_of_pairs (pairs : list (key * value)) : list (key * value) :=
  fold_left (fun d kv => Py.store (fst kv) (snd kv) d) pairs [].

Section Containers.

(** The scanner for one value, which [JSONArray] and [JSONObject] take
    as an argument. *)
Variable scan_once : string -> outcome (value * string).

(** The loop of [JSONArray], entered at the first item; [n] bounds the
    number of items. *)
Fixpoint array_items (n : nat) (s : string) : outcome (list value * string) :=
  match n with
  | O => Raise Unmodelled
  | S n' =>
      ' (v, r) <- scan_once s ;;
      match skip_ws r with
      | String c r' =>
          if Ascii.eqb c "]" then Return ([v], r')
          else if Ascii.eqb c "," then
            ' (vs, r'') <- array_items n' (skip_ws r') ;;
            Return (v :: vs, r'')
          else Raise JSONDecodeError
      | EmptyString => Raise JSONDecodeError
      end
  end.

Definition JSONArray (n : nat) (s : string) : outcome (value * string) :=
  match strip_prefix "]" (skip_ws s) with
  | Some r => Return (VList [], r)
  | None => ' (vs, r) <- array_items n (skip_ws s) ;; Return (VList vs, r)
  end.

(** The loop of [JSONObject], entered after the opening quote of a key. *)
Fixpoint object_items (n : nat) (s : string)
  : outcome (list (key * value) * string) :=
  match n with
  | O => Raise Unmodelled
  | S n' =>
      ' (k, r) <- scanstring s ;;
      match skip_ws r with
      | String c r1 =>
          if Ascii.eqb c ":" then
            ' (v, r2) <- scan_once (skip_ws r1) ;;
            match skip_ws r2 with
            | String c' r3 =>
                if Ascii.eqb c' "}" then Return ([(KStr k, v)], r3)
                else if Ascii.eqb c' "," then
                  match skip_ws r3 with
                  | String q r4 =>
                      if Ascii.eqb q dquote then
                        ' (kvs, r5) <- object_items n' r4 ;;
                        Return ((KStr k, v) :: kvs, r5)
                      else Raise JSONDecodeError
                  | EmptyString => Raise JSONDecodeError
                  end
                else Raise JSONDecodeError
            | EmptyString => Raise JSONDecodeError
            end
          else Raise JSONDecodeError
      | EmptyString => Raise JSONDecodeError
      end
  end.

Definition JSONObject (n : nat) (s : string) : outcome (value * string) :=
  match skip_ws s with
  | String c r =>
      if Ascii.eqb c "}" then Return (VDict [], r)
      else if Ascii.eqb c dquote then
        ' (kvs, r') <- object_items n r ;;
        Return (VDict (dict_of_pairs kvs), r')
      else Raise JSONDecodeError
  | EmptyString => Raise JSONDecodeError
  end.

End Containers.

(** The last branches of [_scan_once]: the three constants, then a number
    matched by [NUMBER_RE], then the names of the special floats.  A float
    leaves the model. *)
Definition scan_constant_or_number (s : string) : outcome (value * string) :=
  match strip_prefix "null" s, strip_prefix "true" s, strip_prefix "false" s with
  | Some rest, _, _ => Return (VNone, rest)
  | None, Some rest, _ => Return (VBool true, rest)
  | None, None, Some rest => Return (VBool false, rest)
  | None, None, None =>
      match match_integer s with
      | Some (i, rest) =>
          if float_follows rest then Raise Unmodelled
          else Return (VInt (Z.of_int i), rest)
      | None =>
          match strip_prefix "NaN" s, strip_prefix "Infinity" s,
                strip_prefix "-Infinity" s with
          | None, None, None => Raise JSONDecodeError
          | _, _, _ => Raise Unmodelled
          end
      end
  end.

(** [_scan_once] of [py_make_scanner].  [fuel] bounds the nesting and the
    number of items; a scan that uses it up leaves the model. *)
Fixpoint scan_once (fuel : nat) (s : string) : outcome (value * string) :=
  match fuel with
  | O => Raise Unmodelled
  | S f =>
      match s with
      | EmptyString => Raise JSONDecodeError
      | String c r =>
          if Ascii.eqb c dquote then
            ' (str, rest) <- scanstring r ;; Return (VStr str, rest)
          else if Ascii.eqb c "{" then JSONObject (scan_once f) f r
          else if Ascii.eqb c "[" then JSONArray (scan_once f) f r
          else scan_constant_or_number s
      end
  end.

(** [JSONDecoder.decode]: white space, one value, white space, the end. *)
Definition loads (s : string) : outcome value :=
  ' (o, rest) <- scan_once (S (String.length s)) (skip_ws s) ;;
  match skip_ws rest with
  | EmptyString => Return o
  | String _ _ => Raise JSONDecodeError
  end.

End json.

(** ** The provisioning tool, seen from the script *)

(** Why [subprocess.run] could not hand back a completed process. *)
Inductive start_failure : Type :=
| NoSuchFile        (* the binary or the working directory is missing *)
| NoPermission
| NotText.          (* the captured output is not text in the locale's encoding *)

(** One run of [terraform output -json] in [../environments/dev]. *)
Inductive launch : Type :=
| Failed (why : start_failure)
| Exited (returncode : Z) (output : string).

Module subprocess.

Record CompletedProcess : Type := { returncode : Z; stdout : string }.

Definition raised (why : start_failure) : exn :=
  match why with
  | NoSuchFile => FileNotFoundError
  | NoPermission => PermissionError
  | NotText => UnicodeDecodeError
  end.

(** [subprocess.run(args, cwd=tf_dir, capture_output=True, text=True,
    check=True)]: with [check], a non-zero return code is an exception. *)
Definition run (w : launch) : outcome CompletedProcess :=
  match w with
  | Failed why => Raise (raised why)
  | Exited rc out =>
      if Z.eqb rc 0 then Return {| returncode := rc; stdout := out |}
      else Raise (CalledProcessError rc)
  end.

End subprocess.

(** ** The script *)

(** What the script writes to standard error: a message of its own with the
    exception it formats into it, or the traceback of an uncaught one. *)
Inductive stderr_item : Type :=
| Message (text : string) (e : exn)
| Traceback (e : exn).

(** [get_terraform_output()]: the [try] block and its two handlers. *)
Definition get_terraform_output (w : launch) : list stderr_item * outcome value :=
  match (result <- subprocess.run w ;; json.loads (subprocess.stdout result)) with
  | Raise (CalledProcessError rc) =>
      ([Message "Error getting Terraform output: " (CalledProcessError rc)],
       Return (VDict []))
  | Raise JSONDecodeError =>
      ([Message "Error parsing Terraform JSON: " JSONDecodeError],
       Return (VDict []))
  | r => ([], r)
  end.

Definition empty_inventory : value :=
  VDict [(KStr "_meta", VDict [(KStr "hostvars", VDict [])])].

Definition connection_vars : value :=
  VDict [(KStr "ansible_user", VStr "azureuser");
         (KStr "ansible_ssh_private_key_file", VStr "~/.ssh/terraform-demo/id_rsa");
         (KStr "ansible_ssh_common_args", VStr "-o StrictHostKeyChecking=no")].

Definition initial_inventory : value :=
  VDict [(KStr "webservers",
          VDict [(KStr "hosts", VList []); (KStr "vars", connection_vars)]);
         (KStr "_meta", VDict [(KStr "hostvars", VDict [])])].

Definition host_record (public_ip private_ip vm_name : value) : value :=
  VDict [(KStr "ansible_host", public_ip);
         (KStr "private_ip", private_ip);
         (KStr "vm_name", vm_name)].

(** The body of [generate_inventory()] once [tf_outputs] is known. *)
Definition generate_inventory_from (tf_outputs : value) : outcome value :=
  if negb (Py.truthy tf_outputs) then Return empty_inventory
  else
    let inventory := initial_inventory in
    present <- Py.contains tf_outputs "vm_connection" ;;
    if present : bool then
      entry <- Py.getitem tf_outputs "vm_connection" ;;
      vm_conn <- Py.getitem entry "value" ;;
      vm_name <- Py.get vm_conn "vm_name" (VStr "unknown") ;;
      public_ip <- Py.get vm_conn "public_ip" (VStr "") ;;
      private_ip <- Py.get vm_conn "private_ip" (VStr "") ;;
      if Py.truthy public_ip then
        inventory <- Py.within "webservers"
                       (Py.within "hosts" (Py.append vm_name)) inventory ;;
        inventory <- Py.within "_meta"
                       (Py.within "hostvars"
                          (Py.setitem vm_name
                             (host_record public_ip private_ip vm_name)))
                       inventory ;;
        Return inventory
      else Return inventory
    else Return inventory.

(** [generate_inventory()] *)
Definition generate_inventory (w : launch) : list stderr_item * outcome value :=
  let (log, tf_outputs) := get_terraform_output w in
  (log, tf_outputs <- tf_outputs ;; generate_inventory_from tf_outputs).

(** A finished process: its two streams and its exit status. *)
Record process : Type :=
  { stdout : string; stderr : list stderr_item; exit_status : Z }.

(** The [__main__] block: [print(json.dumps(inventory, indent=2))].  An
    exception that reaches the top prints a traceback and exits with 1. *)
Definition main (w : launch) : process :=
  match generate_inventory w with
  | (log, Return inventory) =>
      {| stdout := json.dumps inventory ++ String newline "";
         stderr := log;
         exit_status := 0 |}
  | (log, Raise e) =>
      {| stdout := ""; stderr := log ++ [Traceback e]; exit_status := 1 |}
  end.

(** ** Reading an inventory *)

(** [inventory["webservers"]["hosts"]] *)
Definition hosts_field (inventory : value) : outcome value :=
  g <- Py.getitem inventory "webservers" ;; Py.getitem g "hosts".

(** [inventory["webservers"]["vars"]] *)
Definition group_vars (inventory : value) : outcome value :=
  g <- Py.getitem inventory "webservers" ;; Py.getitem g "vars".

(** [inventory["_meta"]["hostvars"]] *)
Definition hostvars_field (inventory : value) : outcome value :=
  m <- Py.getitem inventory "_meta" ;; Py.getitem m "hostvars".

(** The host names of the [webservers] group; none when there is no group. *)
Definition group_hosts (inventory : value) : list value :=
  match hosts_field inventory with
  | Return (VList l) => l
  | _ => []
  end.

(** The entries of [_meta.hostvars]. *)
Definition hostvars (inventory : value) : list (key * value) :=
  match hostvars_field inventory with
  | Return (VDict d) => d
  | _ => []
  end.

(** The keys of a document, in order. *)
Definition top_level_keys (o : value) : list key :=
  match o with
  | VDict d => map fst d
  | _ => []
  end.

(** A text with every apostrophe turned into a double quote: the way JSON
    texts are written down in the statements below. *)
Fixpoint json_text (s : string) : string :=
  match s with
  | EmptyString => ""
  | String c rest =>
      String (if Ascii.eqb c "'" then dquote else c) (json_text rest)
  end.

(** The pretty-printed empty inventory, as [print] writes it. *)
Definition empty_document : string :=
  json_text "{
  '_meta': {
    'hostvars': {}
  }
}
".

(** Whether the [vm_connection] output, if there is one in the entries [d],
    has the shape the script reads: a mapping whose [value] is a mapping,
    with a hashable [vm_name] whenever [public_ip] makes it add a host. *)
Definition connection_ok (d : list (key * value)) : bool :=
  match Py.lookup (KStr "vm_connection") d with
  | None => true
  | Some (VDict entry) =>
      match Py.lookup (KStr "value") entry with
      | Some (VDict conn) =>
          match Py.lookup (KStr "public_ip") conn with
          | Some public_ip =>
              if Py.truthy public_ip then
                match Py.lookup (KStr "vm_name") conn with
                | Some (VList _) | Some (VDict _) => false
                | _ => true
                end
              else true
          | None => true
          end
      | _ => false
      end
  | Some _ => false
  end.

(** The inventory once one host has been added under the key [k]. *)
Definition populated_inventory (name : value) (k : key) (record : value) : value :=
  VDict [(KStr "webservers",
          VDict [(KStr "hosts", VList [name]); (KStr "vars", connection_vars)]);
         (KStr "_meta", VDict [(KStr "hostvars", VDict [(k, record)])])].

(** An inventory with the [webservers] group and its fixed [vars] next to
    [_meta]. *)
Definition has_group (inventory : value) : Prop :=
  top_level_keys inventory = [KStr "webservers"; KStr "_meta"] /\
  group_vars inventory = Return connection_vars.

(** ** Measures and shapes of values *)

(** The number of nodes of a value: the fuel that scanning its text needs. *)
Fixpoint weight (o : value) : nat :=
  match o with
  | VList items => S (list_sum (map weight items))
  | VDict entries => S (list_sum (map (fun kv => weight (snd kv)) entries))
  | _ => 1
  end.

Definition is_str_key (k : key) : bool :=
  match k with
  | KStr _ => true
  | _ => false
  end.

Definition has_key (k : key) (d : list (key * value)) : bool :=
  existsb (fun kv => Py.key_eqb (fst kv) k) d.

Fixpoint distinct_keys (d : list (key * value)) : bool :=
  match d with
  | [] => true
  | (k, _) :: rest => negb (has_key k rest) && distinct_keys rest
  end.

(** The values [json.loads] can produce: every key of every dict is a
    string, and no dict repeats a key. *)
Fixpoint plain (o : value) : bool :=
  match o with
  | VList items => forallb plain items
  | VDict entries =>
      forallb (fun kv => is_str_key (fst kv) && plain (snd kv)) entries
      && distinct_keys entries
  | _ => true
  end.

(** Where a scanned value may stop: at the end of the text, before a comma
    or before a line break. *)
Definition boundary (rest : string) : bool :=
  match rest with
  | EmptyString => true
  | String c _ => Ascii.eqb c "," || Ascii.eqb c newline
  end.

(** A text that starts with a character which is neither white space nor a
    closing bracket. *)
Definition starts_value (s : string) : bool :=
  match s with
  | EmptyString => false
  | String c _ => negb (json.is_ws c) && negb (Ascii.eqb c "]")
  end.

(** The first character of the text of an integer. *)
Definition number_head (c : ascii) : bool :=
  Ascii.eqb c "-" || match json.digit_of c with Some _ => true | None => false end.

(** A value whose text, printed at any depth and followed by any boundary,
    is scanned back to the value itself. *)
Definition scans_back (x : value) : Prop :=
  forall level fuel rest,
    weight x <= fuel -> boundary rest = true ->
    json.scan_once fuel (json.iterencode level x ++ rest) = Return (x, rest).

(** Induction on values, with the items of lists and dicts covered. *)

Fixpoint value_induction (P : value -> Prop)
  (HNone : P VNone) (HBool : forall b, P (VBool b)) (HInt : forall z, P (VInt z))
  (HStr : forall s, P (VStr s))
  (HList : forall items, Forall P items -> P (VList items))
  (HDict : forall entries, Forall (fun kv => P (snd kv)) entries ->
                           P (VDict entries))
  (v : value) {struct v} : P v :=
  match v with
  | VNone => HNone
  | VBool b => HBool b
  | VInt z => HInt z
  | VStr s => HStr s
  | VList items =>
      HList items
        ((fix all (l : list value) : Forall P l :=
            match l with
            | [] => Forall_nil P
            | x :: xs =>
                Forall_cons x
                  (value_induction P HNone HBool HInt HStr HList HDict x)
                  (all xs)
            end) items)
  | VDict entries =>
      HDict entries
        ((fix all (l : list (key * value)) : Forall (fun kv => P (snd kv)) l :=
            match l with
            | [] => Forall_nil _
            | kv :: rest =>
                Forall_cons kv
                  (value_induction P HNone HBool HInt HStr HList HDict (snd kv))
                  (all rest)
            end) entries)
  end.

(** ** Shapes of texts *)

(** A line break or a printable ASCII character, from space to tilde. *)
Definition printable (c : ascii) : bool :=
  Ascii.eqb c newline
  || (Nat.leb 32 (nat_of_ascii c) && Nat.leb (nat_of_ascii c) 126).

(** A text made of line breaks and printable ASCII characters only. *)
Fixpoint ascii_only (s : string) : bool :=
  match s with
  | EmptyString => true
  | String c rest => printable c && ascii_only rest
  end.

(** * Properties of the codec *)

(** ** Strings *)

Lemma append_assoc (a b c : string) : (a ++ b) ++ c = a ++ (b ++ c).
Proof. induction a as [|x a IH]; cbn; [reflexivity | now rewrite IH]. Qed.

Lemma append_empty_r (a : string) : a ++ "" = a.
Proof. induction a as [|x a IH]; cbn; [reflexivity | now rewrite IH]. Qed.

Lemma length_append (a b : string) :
  String.length (a ++ b) = String.length a + String.length b.
Proof. induction a as [|x a IH]; cbn; [reflexivity | now rewrite IH]. Qed.

(** ** Strings round-trip *)

Lemma scanstring_escape_char c t :
  json.scanstring (json.escape_char c ++ t) = json.prepend c (json.scanstring t).
Proof.
  destruct c as [[] [] [] [] [] [] [] []]; reflexivity.
Qed.

Lemma scanstring_escape s rest :
  json.scanstring (json.escape s ++ String dquote rest) = Return (s, rest).
Proof.
  induction s as [|c s IH].
  - reflexivity.
  - cbn [json.escape]. rewrite append_assoc, scanstring_escape_char, IH.
    reflexivity.
Qed.

Lemma encode_basestring_ascii_append s rest :
  json.encode_basestring_ascii s ++ rest
  = String dquote (json.escape s ++ String dquote rest).
Proof.
  unfold json.encode_basestring_ascii. cbn [append].
  now rewrite append_assoc.
Qed.

(** ** Integers round-trip *)

Lemma digits_boundary rest :
  json.starts_with_digit rest = false -> json.digits rest = (Nil, rest).
Proof.
  destruct rest as [|c r]; [reflexivity|].
  cbn. destruct (json.digit_of c); [discriminate | reflexivity].
Qed.

Lemma digits_string_of_uint u rest :
  json.starts_with_digit rest = false ->
  json.digits (NilEmpty.string_of_uint u ++ rest) = (u, rest).
Proof.
  intros Hrest.
  induction u as [|u IH|u IH|u IH|u IH|u IH|u IH|u IH|u IH|u IH|u IH];
    [ now apply digits_boundary | .. ];
    cbn [NilEmpty.string_of_uint append json.digits];
    cbn -[append]; rewrite IH; reflexivity.
Qed.

(** The decimal digits of a positive number do not start with a zero. *)
Lemma to_uint_head p :
  match Pos.to_uint p with
  | Nil | D0 _ => False
  | _ => True
  end.
Proof.
  pose proof (Unsigned.to_of (Pos.to_uint p)) as H.
  rewrite Unsigned.of_to in H. cbn [N.to_uint] in H.
  pose proof (Unsigned.to_uint_nonzero p) as Hz.
  destruct (Pos.to_uint p) as [|u| | | | | | | | | ]; try exact I.
  - discriminate H.
  - unfold unorm in H. rewrite nzhead_D0 in H.
    destruct (nzhead u) eqn:Hu; try (now apply nzhead_nonzero in Hu);
      try discriminate H.
    injection H as H. subst u. now elim Hz.
Qed.

Lemma match_integer_unsigned p rest :
  json.starts_with_digit rest = false ->
  json.match_integer (NilEmpty.string_of_uint (Pos.to_uint p) ++ rest)
  = Some (Pos (Pos.to_uint p), rest).
Proof.
  intros Hrest. pose proof (to_uint_head p) as Hhead.
  pose proof (digits_string_of_uint (Pos.to_uint p) rest Hrest) as Hd.
  destruct (Pos.to_uint p) as [|u|u|u|u|u|u|u|u|u|u]; try contradiction;
    cbn [NilEmpty.string_of_uint append] in *;
    unfold json.match_integer;
    cbn [Ascii.eqb Bool.eqb json.starts_with_digit];
    cbn -[json.digits]; rewrite Hd; reflexivity.
Qed.

Lemma match_integer_int_repr z rest :
  json.starts_with_digit rest = false ->
  json.match_integer (json.int_repr z ++ rest) = Some (Z.to_int z, rest).
Proof.
  intros Hrest. unfold json.int_repr.
  destruct z as [|p|p]; cbn [Z.to_int NilEmpty.string_of_int].
  - reflexivity.
  - now apply match_integer_unsigned.
  - pose proof (match_integer_unsigned p rest Hrest) as H.
    pose proof (to_uint_head p) as Hhead.
    cbn [append]. unfold json.match_integer in *.
    cbn [Ascii.eqb Bool.eqb].
    destruct (NilEmpty.string_of_uint (Pos.to_uint p) ++ rest) as [|c r] eqn:E;
      [discriminate H|].
    destruct (Ascii.eqb c "-") eqn:Hminus.
    + apply Ascii.eqb_eq in Hminus. subst c.
      destruct (Pos.to_uint p); try contradiction; discriminate E.
    + destruct (Ascii.eqb c "0"); [congruence|].
      destruct (json.starts_with_digit (String c r)); [|discriminate H].
      destruct (json.digits (String c r)). congruence.
Qed.

Lemma int_repr_head z rest :
  exists c r, json.int_repr z ++ rest = String c r /\ number_head c = true.
Proof.
  unfold json.int_repr.
  destruct z as [|p|p]; cbn [Z.to_int NilEmpty.string_of_int].
  - now exists "0"%char, rest.
  - pose proof (to_uint_head p) as Hhead.
    destruct (Pos.to_uint p); try contradiction;
      cbn [NilEmpty.string_of_uint append]; eexists; eexists;
      (split; [reflexivity | reflexivity]).
  - cbn [append]. eexists; eexists. split; reflexivity.
Qed.

Lemma boundary_no_digit rest :
  boundary rest = true -> json.starts_with_digit rest = false.
Proof.
  destruct rest as [|c r]; [reflexivity|]. cbn [boundary].
  intros H. apply orb_true_iff in H.
  destruct H as [H|H]; apply Ascii.eqb_eq in H; subst c; reflexivity.
Qed.

Lemma boundary_no_float rest :
  boundary rest = true -> json.float_follows rest = false.
Proof.
  destruct rest as [|c r]; [reflexivity|]. cbn [boundary].
  intros H. apply orb_true_iff in H.
  destruct H as [H|H]; apply Ascii.eqb_eq in H; subst c; reflexivity.
Qed.

Lemma scan_number_head c r :
  number_head c = true ->
  json.scan_constant_or_number (String c r) =
    match json.match_integer (String c r) with
    | Some (i, rest) =>
        if json.float_follows rest then Raise Unmodelled
        else Return (VInt (Z.of_int i), rest)
    | None =>
        match json.strip_prefix "NaN" (String c r),
              json.strip_prefix "Infinity" (String c r),
              json.strip_prefix "-Infinity" (String c r) with
        | None, None, None => Raise JSONDecodeError
        | _, _, _ => Raise Unmodelled
        end
    end.
Proof.
  destruct c as [[] [] [] [] [] [] [] []]; try discriminate; reflexivity.
Qed.

Lemma scan_constant_or_number_int z rest :
  boundary rest = true ->
  json.scan_constant_or_number (json.int_repr z ++ rest) = Return (VInt z, rest).
Proof.
  intros Hb.
  destruct (int_repr_head z rest) as (c & r & E & Hc).
  pose proof (match_integer_int_repr z rest (boundary_no_digit _ Hb)) as Hm.
  rewrite E in *. rewrite (scan_number_head _ _ Hc), Hm.
  rewrite (boundary_no_float _ Hb). now rewrite DecimalZ.of_to.
Qed.

Lemma scan_once_head_number f c r :
  number_head c = true ->
  json.scan_once (S f) (String c r) = json.scan_constant_or_number (String c r).
Proof.
  destruct c as [[] [] [] [] [] [] [] []]; try discriminate; reflexivity.
Qed.

Lemma scan_once_int f z rest :
  boundary rest = true ->
  json.scan_once (S f) (json.int_repr z ++ rest) = Return (VInt z, rest).
Proof.
  intros Hb. rewrite <- (scan_constant_or_number_int z rest Hb).
  destruct (int_repr_head z rest) as (c & r & -> & Hc).
  now apply scan_once_head_number.
Qed.

(** ** White space *)

Lemma skip_ws_value s : starts_value s = true -> json.skip_ws s = s.
Proof.
  destruct s as [|c r]; [reflexivity|]. cbn [starts_value json.skip_ws].
  destruct (json.is_ws c); [discriminate | reflexivity].
Qed.

Lemma skip_ws_spaces n s : json.skip_ws (json.spaces n ++ s) = json.skip_ws s.
Proof. induction n as [|n IH]; [reflexivity | exact IH]. Qed.

Lemma skip_ws_newline_indent n s :
  json.skip_ws (json.newline_indent n ++ s) = json.skip_ws s.
Proof. unfold json.newline_indent. cbn. apply skip_ws_spaces. Qed.

Lemma boundary_newline_indent n s : boundary (json.newline_indent n ++ s) = true.
Proof. reflexivity. Qed.

Lemma starts_value_iterencode level v rest :
  starts_value (json.iterencode level v ++ rest) = true.
Proof.
  destruct v as [ | [|] | z | s | [|x xs] | [|kv d]]; try reflexivity.
  cbn [json.iterencode].
  destruct (int_repr_head z rest) as (c & r & -> & Hc).
  destruct c as [[] [] [] [] [] [] [] []]; try discriminate; reflexivity.
Qed.

(** ** Dicts built from pairs *)

Lemma key_eqb_sym a b : Py.key_eqb a b = Py.key_eqb b a.
Proof.
  destruct a, b; cbn; try reflexivity.
  - apply String.eqb_sym.
  - apply Z.eqb_sym.
  - apply Z.eqb_sym.
  - apply Z.eqb_sym.
  - now destruct b0, b.
Qed.

Lemma has_key_app k d d' : has_key k (d ++ d') = has_key k d || has_key k d'.
Proof. unfold has_key. apply existsb_app. Qed.

Lemma has_key_false_in k d :
  has_key k d = false -> forall kv, In kv d -> Py.key_eqb (fst kv) k = false.
Proof.
  induction d as [|kv' d IH]; intros H kv Hin; [contradiction|].
  cbn [has_key existsb] in H. apply orb_false_iff in H.
  destruct Hin as [<-|Hin]; [tauto | now apply IH].
Qed.

Lemma store_fresh k v d :
  has_key k d = false -> Py.store k v d = (d ++ [(k, v)])%list.
Proof.
  induction d as [|[k' v'] d IH]; [reflexivity|].
  cbn [has_key existsb fst Py.store]. intros H.
  apply orb_false_iff in H. destruct H as [Hk Hd].
  rewrite Hk. cbn [Datatypes.app]. f_equal. now apply IH.
Qed.

Lemma fold_store_distinct d : forall acc,
  distinct_keys d = true ->
  (forall kv, In kv d -> has_key (fst kv) acc = false) ->
  fold_left (fun d kv => Py.store (fst kv) (snd kv) d) d acc = (acc ++ d)%list.
Proof.
  induction d as [|[k v] d IH]; intros acc Hd Hacc.
  - cbn. now rewrite List.app_nil_r.
  - cbn [fold_left fst snd]. cbn [distinct_keys] in Hd.
    apply andb_true_iff in Hd. destruct Hd as [Hk Hd].
    apply negb_true_iff in Hk.
    rewrite store_fresh by (apply (Hacc (k, v)); now left).
    rewrite IH; [ now rewrite <- List.app_assoc | assumption | ].
    intros [k' v'] Hin. cbn [fst]. rewrite has_key_app.
    pose proof (Hacc (k', v') (or_intror Hin)) as Hfresh. cbn [fst] in Hfresh.
    rewrite Hfresh. cbn. rewrite orb_false_r.
    rewrite key_eqb_sym. exact (has_key_false_in _ _ Hk _ Hin).
Qed.

Lemma dict_of_pairs_distinct d :
  distinct_keys d = true -> json.dict_of_pairs d = d.
Proof.
  intros Hd. unfold json.dict_of_pairs.
  now rewrite fold_store_distinct.
Qed.

(** ** Lists round-trip *)

Lemma array_items_step scan n s :
  json.array_items scan (S n) s =
    (' (v, r) <- scan s ;;
     match json.skip_ws r with
     | String c r' =>
         if Ascii.eqb c "]" then Return ([v], r')
         else if Ascii.eqb c "," then
           ' (vs, r'') <- json.array_items scan n (json.skip_ws r') ;;
           Return (v :: vs, r'')
         else Raise JSONDecodeError
     | EmptyString => Raise JSONDecodeError
     end).
Proof. reflexivity. Qed.

Lemma array_items_comma scan n x s z :
  scan s = Return (x, String "," z) ->
  json.array_items scan (S n) s =
    (' (vs, r) <- json.array_items scan n (json.skip_ws z) ;; Return (x :: vs, r)).
Proof. intros H. rewrite array_items_step, H. reflexivity. Qed.

Lemma array_items_close scan n x s z r :
  scan s = Return (x, z) ->
  json.skip_ws z = String "]" r ->
  json.array_items scan (S n) s = Return ([x], r).
Proof. intros H H'. rewrite array_items_step, H. cbn [bind]. now rewrite H'. Qed.

Lemma concat_cons_cons sep a b l :
  String.concat sep (a :: b :: l) = a ++ sep ++ String.concat sep (b :: l).
Proof. reflexivity. Qed.

Lemma comma_append a z : ("," ++ a) ++ z = String "," (a ++ z).
Proof. reflexivity. Qed.

Lemma concat_cons_append sep a l tail :
  exists t, String.concat sep (a :: l) ++ tail = a ++ t.
Proof.
  destruct l as [|b l].
  - now exists tail.
  - exists (sep ++ String.concat sep (b :: l) ++ tail).
    now rewrite concat_cons_cons, !append_assoc.
Qed.

Lemma starts_value_concat level sep x xs tail :
  starts_value
    (String.concat sep (map (json.iterencode level) (x :: xs)) ++ tail) = true.
Proof.
  change (map (json.iterencode level) (x :: xs))
    with (json.iterencode level x :: map (json.iterencode level) xs).
  destruct (concat_cons_append sep (json.iterencode level x)
              (map (json.iterencode level) xs) tail) as (t & ->).
  apply starts_value_iterencode.
Qed.

Lemma array_items_concat f level rest : forall items n,
  items <> [] ->
  Forall scans_back items ->
  Forall (fun x => weight x <= f) items ->
  List.length items <= n ->
  json.array_items (json.scan_once f) n
    (String.concat ("," ++ json.newline_indent (S level))
       (map (json.iterencode (S level)) items)
     ++ json.newline_indent level ++ "]" ++ rest)
  = Return (items, rest).
Proof.
  induction items as [|x xs IH]; intros n Hne Hback Hw Hn; [congruence|].
  inversion Hback as [|? ? Hx Hxs]; subst.
  inversion Hw as [|? ? Hwx Hwxs]; subst.
  destruct n as [|n]; [cbn in Hn; lia|].
  destruct xs as [|y ys].
  - apply array_items_close with (z := json.newline_indent level ++ "]" ++ rest).
    + apply Hx; [assumption | reflexivity].
    + now rewrite skip_ws_newline_indent.
  - change (map (json.iterencode (S level)) (x :: y :: ys))
      with (json.iterencode (S level) x
            :: json.iterencode (S level) y
            :: map (json.iterencode (S level)) ys).
    rewrite concat_cons_cons, !append_assoc.
    rewrite (array_items_comma _ _ x _
               (json.newline_indent (S level)
                ++ String.concat ("," ++ json.newline_indent (S level))
                     (json.iterencode (S level) y
                      :: map (json.iterencode (S level)) ys)
                ++ json.newline_indent level ++ "]" ++ rest)).
    2: { rewrite <- comma_append. apply Hx; [assumption | reflexivity]. }
    rewrite skip_ws_newline_indent.
    change (json.iterencode (S level) y
            :: map (json.iterencode (S level)) ys)
      with (map (json.iterencode (S level)) (y :: ys)).
    rewrite skip_ws_value by apply starts_value_concat.
    rewrite IH; [reflexivity | discriminate | assumption | assumption | ].
    cbn [List.length] in *. lia.
Qed.

(** ** Dicts round-trip *)

Lemma object_items_step scan n s :
  json.object_items scan (S n) s =
    (' (k, r) <- json.scanstring s ;;
     match json.skip_ws r with
     | String c r1 =>
         if Ascii.eqb c ":" then
           ' (v, r2) <- scan (json.skip_ws r1) ;;
           match json.skip_ws r2 with
           | String c' r3 =>
               if Ascii.eqb c' "}" then Return ([(KStr k, v)], r3)
               else if Ascii.eqb c' "," then
                 match json.skip_ws r3 with
                 | String q r4 =>
                     if Ascii.eqb q dquote then
                       ' (kvs, r5) <- json.object_items scan n r4 ;;
                       Return ((KStr k, v) :: kvs, r5)
                     else Raise JSONDecodeError
                 | EmptyString => Raise JSONDecodeError
                 end
               else Raise JSONDecodeError
           | EmptyString => Raise JSONDecodeError
           end
         else Raise JSONDecodeError
     | EmptyString => Raise JSONDecodeError
     end).
Proof. reflexivity. Qed.

Lemma object_items_close scan n k v s r1 z r :
  json.scanstring s = Return (k, String ":" r1) ->
  scan (json.skip_ws r1) = Return (v, z) ->
  json.skip_ws z = String "}" r ->
  json.object_items scan (S n) s = Return ([(KStr k, v)], r).
Proof.
  intros Hk Hv Hz. rewrite object_items_step, Hk. cbn [bind].
  change (json.skip_ws (String ":" r1)) with (String ":" r1).
  cbn [Ascii.eqb Bool.eqb]. rewrite Hv. cbn [bind]. now rewrite Hz.
Qed.

Lemma object_items_comma scan n k v s r1 z r4 :
  json.scanstring s = Return (k, String ":" r1) ->
  scan (json.skip_ws r1) = Return (v, String "," z) ->
  json.skip_ws z = String dquote r4 ->
  json.object_items scan (S n) s =
    (' (kvs, r5) <- json.object_items scan n r4 ;;
     Return ((KStr k, v) :: kvs, r5)).
Proof.
  intros Hk Hv Hz. rewrite object_items_step, Hk. cbn [bind].
  change (json.skip_ws (String ":" r1)) with (String ":" r1).
  cbn [Ascii.eqb Bool.eqb]. rewrite Hv. cbn [bind].
  change (json.skip_ws (String "," z)) with (String "," z).
  cbn [Ascii.eqb Bool.eqb]. now rewrite Hz.
Qed.

Lemma string_tail_inj c a b : String c a = String c b -> a = b.
Proof. now intros [= ->]. Qed.

Lemma entry_text_append k level v t :
  json.encode_basestring_ascii k ++ ": " ++ json.iterencode level v ++ t
  = String dquote
      (json.escape k
       ++ String dquote (String ":" (String " " (json.iterencode level v ++ t)))).
Proof. now rewrite encode_basestring_ascii_append. Qed.

Lemma entries_text_head level sep kv entries tail :
  exists body,
    String.concat sep
      (map (fun kv => json.encode_basestring_ascii (json.key_text (fst kv))
                      ++ ": " ++ json.iterencode level (snd kv))
         (kv :: entries)) ++ tail
    = String dquote body.
Proof.
  cbn [map].
  match goal with
  | |- context [String.concat sep (?a :: ?l)] =>
      destruct (concat_cons_append sep a l tail) as (t & ->)
  end.
  rewrite append_assoc, encode_basestring_ascii_append. now eexists.
Qed.

Lemma object_items_concat f level rest : forall entries n body,
  entries <> [] ->
  Forall (fun kv => is_str_key (fst kv) = true) entries ->
  Forall (fun kv => scans_back (snd kv)) entries ->
  Forall (fun kv => weight (snd kv) <= f) entries ->
  List.length entries <= n ->
  String dquote body =
    String.concat ("," ++ json.newline_indent (S level))
      (map (fun kv => json.encode_basestring_ascii (json.key_text (fst kv))
                      ++ ": " ++ json.iterencode (S level) (snd kv))
         entries)
    ++ json.newline_indent level ++ "}" ++ rest ->
  json.object_items (json.scan_once f) n body = Return (entries, rest).
Proof.
  induction entries as [|[k v] es IH];
    intros n body Hne Hkeys Hback Hw Hn Hbody; [congruence|].
  inversion Hkeys as [|? ? Hk Hks]; subst.
  inversion Hback as [|? ? Hv Hvs]; subst.
  inversion Hw as [|? ? Hwv Hwvs]; subst.
  destruct k as [k| | |]; try discriminate Hk. cbn [fst snd] in *.
  destruct n as [|n]; [cbn in Hn; lia|].
  destruct es as [|kv es].
  - cbn [map String.concat fst snd json.key_text] in Hbody.
    rewrite !append_assoc, entry_text_append in Hbody.
    apply string_tail_inj in Hbody. subst body.
    eapply object_items_close.
    + apply scanstring_escape.
    + change (json.skip_ws (String " " ?s)) with (json.skip_ws s).
      rewrite skip_ws_value by apply starts_value_iterencode.
      apply Hv; [assumption | reflexivity].
    + exact (skip_ws_newline_indent level (String "}" rest)).
  - cbn [map fst snd json.key_text] in Hbody.
    rewrite concat_cons_cons, !append_assoc, entry_text_append in Hbody.
    apply string_tail_inj in Hbody. subst body.
    match goal with
    | |- context [String.concat ?sep (?a :: map ?g es)] =>
        change (a :: map g es) with (map g (kv :: es));
        destruct (entries_text_head (S level) sep kv es
                    (json.newline_indent level ++ "}" ++ rest))
          as (body' & Hbody')
    end.
    erewrite object_items_comma.
    + rewrite (IH n body'); [reflexivity | discriminate | assumption ..| | ].
      * cbn [List.length] in *. lia.
      * symmetry. exact Hbody'.
    + apply scanstring_escape.
    + change (json.skip_ws (String " " ?s)) with (json.skip_ws s).
      rewrite skip_ws_value by apply starts_value_iterencode.
      apply Hv; [assumption | reflexivity].
    + rewrite skip_ws_newline_indent, Hbody'. reflexivity.
Qed.

(** ** Every plain value scans back from its text *)

Lemma weight_pos v : 1 <= weight v.
Proof. destruct v; cbn; lia. Qed.

Lemma list_sum_bounds {A} (w : A -> nat) l n :
  (forall x, 1 <= w x) ->
  list_sum (map w l) <= n ->
  Forall (fun x => w x <= n) l /\ List.length l <= n.
Proof.
  intros Hpos. revert n. induction l as [|x l IH]; intros n Hn.
  - split; [constructor | cbn; lia].
  - change (w x + list_sum (map w l) <= n) in Hn. specialize (Hpos x) as Hx.
    destruct (IH (n - w x)) as [Hall Hlen]; [lia|].
    split.
    + constructor; [lia|].
      eapply Forall_impl; [|exact Hall]. cbn. intros; lia.
    + cbn [List.length]. lia.
Qed.

Lemma scan_once_string f r :
  json.scan_once (S f) (String dquote r) =
    (' (str, rest) <- json.scanstring r ;; Return (VStr str, rest)).
Proof. reflexivity. Qed.

Lemma scan_once_array f r :
  json.scan_once (S f) (String "[" r) = json.JSONArray (json.scan_once f) f r.
Proof. reflexivity. Qed.

Lemma scan_once_object f r :
  json.scan_once (S f) (String "{" r) = json.JSONObject (json.scan_once f) f r.
Proof. reflexivity. Qed.

Lemma strip_bracket_value s :
  starts_value s = true -> json.strip_prefix "]" s = None.
Proof.
  destruct s as [|c r]; [reflexivity|]. cbn [starts_value json.strip_prefix].
  intros H. apply andb_true_iff in H. destruct H as [_ H].
  apply negb_true_iff in H. rewrite Ascii.eqb_sym. now rewrite H.
Qed.

Lemma plain_list items :
  plain (VList items) = true -> Forall (fun x => plain x = true) items.
Proof.
  cbn [plain]. intros H. apply Forall_forall.
  exact (proj1 (forallb_forall _ _) H).
Qed.

Lemma plain_dict entries :
  plain (VDict entries) = true ->
  Forall (fun kv => is_str_key (fst kv) = true) entries /\
  Forall (fun kv => plain (snd kv) = true) entries /\
  distinct_keys entries = true.
Proof.
  cbn [plain]. intros H. apply andb_true_iff in H. destruct H as [H Hd].
  rewrite forallb_forall in H.
  repeat split; [ | | assumption ]; apply Forall_forall; intros kv Hin;
    specialize (H kv Hin); apply andb_true_iff in H; tauto.
Qed.

Lemma Forall_modus {A} (P Q : A -> Prop) l :
  Forall (fun x => P x -> Q x) l -> Forall P l -> Forall Q l.
Proof.
  induction 1 as [|x l Hx Hl IH]; intros HP; [constructor|].
  inversion HP; subst. constructor; auto.
Qed.

Theorem scan_once_iterencode v : plain v = true -> scans_back v.
Proof.
  induction v as [ | b | z | s | items IH | entries IH ] using value_induction;
    intros Hplain level fuel rest Hfuel Hb;
    (destruct fuel as [|f]; [cbn [weight] in Hfuel; lia|]).
  - reflexivity.
  - destruct b; reflexivity.
  - now apply scan_once_int.
  - cbn [json.iterencode]. rewrite encode_basestring_ascii_append.
    now rewrite scan_once_string, scanstring_escape.
  - destruct items as [|x xs]; [reflexivity|].
    pose proof (Forall_modus _ _ _ IH (plain_list _ Hplain)) as Hback.
    cbn [weight] in Hfuel.
    destruct (list_sum_bounds weight (x :: xs) f weight_pos) as [Hw Hlen];
      [lia|].
    cbn [json.iterencode]. rewrite !append_assoc.
    change ("[" ++ ?t) with (String "[" t). rewrite scan_once_array.
    unfold json.JSONArray.
    rewrite skip_ws_newline_indent.
    rewrite skip_ws_value by apply starts_value_concat.
    rewrite strip_bracket_value by apply starts_value_concat.
    rewrite array_items_concat; [reflexivity | discriminate | assumption ..].
  - destruct entries as [|kv es]; [reflexivity|].
    destruct (plain_dict _ Hplain) as (Hkeys & Hvals & Hdistinct).
    pose proof (Forall_modus _ _ _ IH Hvals) as Hback.
    cbn [weight] in Hfuel.
    destruct (list_sum_bounds (fun kv => weight (snd kv)) (kv :: es) f
                (fun kv => weight_pos (snd kv))) as [Hw Hlen]; [lia|].
    cbn [json.iterencode]. rewrite !append_assoc.
    change ("{" ++ ?t) with (String "{" t). rewrite scan_once_object.
    unfold json.JSONObject.
    rewrite skip_ws_newline_indent.
    destruct (entries_text_head (S level)
                ("," ++ json.newline_indent (S level)) kv es
                (json.newline_indent level ++ "}" ++ rest)) as (body & Hbody).
    rewrite Hbody.
    change (json.skip_ws (String dquote body)) with (String dquote body).
    cbn [Ascii.eqb Bool.eqb].
    rewrite (object_items_concat f level rest (kv :: es) f body);
      [ | discriminate | assumption .. | now symmetry ].
    cbn [bind]. now rewrite dict_of_pairs_distinct.
Qed.

(** ** The text is long enough to pay for its own scan *)

Lemma concat_length_bound {A} (w : A -> nat) (g : A -> string) sep l :
  Forall (fun x => w x <= String.length (g x)) l ->
  list_sum (map w l) <= String.length (String.concat sep (map g l)).
Proof.
  induction 1 as [|x l Hx Hl IH]; [cbn; lia|].
  change (list_sum (map w (x :: l))) with (w x + list_sum (map w l)).
  destruct l as [|y l].
  - cbn. lia.
  - change (map g (x :: y :: l)) with (g x :: g y :: map g l).
    rewrite concat_cons_cons, !length_append.
    change (g y :: map g l) with (map g (y :: l)). lia.
Qed.

Lemma weight_le_length v : forall level,
  weight v <= String.length (json.iterencode level v).
Proof.
  induction v as [ | b | z | s | items IH | entries IH ] using value_induction;
    intros level.
  - cbn. lia.
  - destruct b; cbn; lia.
  - cbn [weight json.iterencode].
    destruct (int_repr_head z "") as (c & r & E & _).
    rewrite append_empty_r in E. rewrite E. cbn. lia.
  - cbn. lia.
  - destruct items as [|x xs]; [cbn; lia|].
    cbn [weight json.iterencode]. rewrite !length_append.
    pose proof (concat_length_bound weight (json.iterencode (S level))
                  ("," ++ json.newline_indent (S level)) (x :: xs)) as H.
    cbn [String.length]. apply Nat.le_trans with
      (S (String.length
            (String.concat ("," ++ json.newline_indent (S level))
               (map (json.iterencode (S level)) (x :: xs))))); [|lia].
    apply le_n_S, H.
    eapply Forall_impl; [|exact IH]. intros a Ha. apply Ha.
  - destruct entries as [|kv es]; [cbn; lia|].
    cbn [weight json.iterencode]. rewrite !length_append.
    pose proof (concat_length_bound (fun kv => weight (snd kv))
                  (fun kv => json.encode_basestring_ascii (json.key_text (fst kv))
                             ++ ": " ++ json.iterencode (S level) (snd kv))
                  ("," ++ json.newline_indent (S level)) (kv :: es)) as H.
    cbn [String.length]. apply Nat.le_trans with
      (S (String.length
            (String.concat ("," ++ json.newline_indent (S level))
               (map (fun kv => json.encode_basestring_ascii (json.key_text (fst kv))
                               ++ ": " ++ json.iterencode (S level) (snd kv))
                  (kv :: es))))); [|lia].
    apply le_n_S, H.
    eapply Forall_impl; [|exact IH]. intros a Ha. cbn beta.
    rewrite !length_append. specialize (Ha (S level)). lia.
Qed.

(** ** [loads] after [dumps] *)

Theorem loads_dumps v tail :
  plain v = true ->
  boundary tail = true ->
  json.skip_ws tail = "" ->
  json.loads (json.dumps v ++ tail) = Return v.
Proof.
  intros Hplain Hb Htail. unfold json.loads, json.dumps.
  rewrite skip_ws_value by apply starts_value_iterencode.
  rewrite (scan_once_iterencode v Hplain); [ | | assumption ].
  - cbn [bind]. now rewrite Htail.
  - rewrite length_append. pose proof (weight_le_length v 0). lia.
Qed.

(** ** What [loads] returns is plain *)

Lemma has_key_store k' k v d :
  has_key k' d = false -> Py.key_eqb k k' = false ->
  has_key k' (Py.store k v d) = false.
Proof.
  intros Hd Hk. induction d as [|[k0 v0] d IH].
  - cbn. now rewrite Hk.
  - cbn [has_key existsb fst] in Hd. apply orb_false_iff in Hd.
    destruct Hd as [H0 Hd]. cbn [Py.store].
    destruct (Py.key_eqb k0 k); cbn [has_key existsb fst]; rewrite H0.
    + exact Hd.
    + now apply IH.
Qed.

Lemma store_plain k v d :
  is_str_key k = true -> plain v = true ->
  plain (VDict d) = true -> plain (VDict (Py.store k v d)) = true.
Proof.
  intros Hk Hv. induction d as [|[k0 v0] d IH]; intros Hd.
  - cbn. now rewrite Hk, Hv.
  - cbn [plain forallb distinct_keys fst snd] in Hd.
    apply andb_true_iff in Hd. destruct Hd as [Hall Hdist].
    apply andb_true_iff in Hall. destruct Hall as [H0 Hall].
    apply andb_true_iff in H0. destruct H0 as [Hk0 Hv0].
    apply andb_true_iff in Hdist. destruct Hdist as [Hfresh Hdist].
    apply negb_true_iff in Hfresh.
    cbn [Py.store]. destruct (Py.key_eqb k0 k) eqn:E.
    + cbn [plain forallb distinct_keys fst snd].
      now rewrite Hk0, Hv, Hall, Hfresh, Hdist.
    + assert (IH' : plain (VDict (Py.store k v d)) = true).
      { apply IH. cbn [plain]. now rewrite Hall, Hdist. }
      cbn [plain] in IH'. apply andb_true_iff in IH'. destruct IH' as [Ha Hb].
      cbn [plain forallb distinct_keys fst snd].
      rewrite Hk0, Hv0, Ha, Hb.
      rewrite has_key_store; [reflexivity | assumption | ].
      now rewrite key_eqb_sym.
Qed.

Lemma dict_of_pairs_plain kvs :
  Forall (fun kv => is_str_key (fst kv) = true /\ plain (snd kv) = true) kvs ->
  plain (VDict (json.dict_of_pairs kvs)) = true.
Proof.
  unfold json.dict_of_pairs. intros H.
  assert (Hacc : plain (VDict []) = true) by reflexivity.
  revert Hacc. generalize (@nil (key * value)).
  induction H as [|kv kvs [Hk Hv] _ IH]; intros acc Hacc; [exact Hacc|].
  cbn [fold_left]. apply IH. now apply store_plain.
Qed.

Section ScannedContainers.

Variable scan : string -> outcome (value * string).
Hypothesis scan_plain : forall s v r, scan s = Return (v, r) -> plain v = true.

Lemma array_items_plain n : forall s vs r,
  json.array_items scan n s = Return (vs, r) -> forallb plain vs = true.
Proof.
  induction n as [|n IH]; intros s vs r; [discriminate|].
  rewrite array_items_step.
  destruct (scan s) as [[v r0]|] eqn:Hv; [|discriminate]. cbn [bind].
  apply scan_plain in Hv.
  destruct (json.skip_ws r0) as [|c r1]; [discriminate|].
  destruct (Ascii.eqb c "]").
  - intros [= <- _]. cbn. now rewrite Hv.
  - destruct (Ascii.eqb c ","); [|discriminate].
    destruct (json.array_items scan n (json.skip_ws r1)) as [[vs' r2]|] eqn:Hvs;
      [|discriminate].
    cbn [bind]. intros [= <- _]. cbn [forallb]. rewrite Hv.
    now apply IH in Hvs.
Qed.

Lemma JSONArray_plain n s v r :
  json.JSONArray scan n s = Return (v, r) -> plain v = true.
Proof.
  unfold json.JSONArray.
  destruct (json.strip_prefix "]" (json.skip_ws s)); [now intros [= <- _]|].
  destruct (json.array_items scan n (json.skip_ws s)) as [[vs r']|] eqn:H;
    [|discriminate].
  cbn [bind]. intros [= <- _]. cbn [plain]. now apply array_items_plain in H.
Qed.

Lemma object_items_plain n : forall s kvs r,
  json.object_items scan n s = Return (kvs, r) ->
  Forall (fun kv => is_str_key (fst kv) = true /\ plain (snd kv) = true) kvs.
Proof.
  induction n as [|n IH]; intros s kvs r; [discriminate|].
  rewrite object_items_step.
  destruct (json.scanstring s) as [[k r0]|]; [|discriminate]. cbn [bind].
  destruct (json.skip_ws r0) as [|c r1]; [discriminate|].
  destruct (Ascii.eqb c ":"); [|discriminate].
  destruct (scan (json.skip_ws r1)) as [[v r2]|] eqn:Hv; [|discriminate].
  cbn [bind]. apply scan_plain in Hv.
  destruct (json.skip_ws r2) as [|c' r3]; [discriminate|].
  destruct (Ascii.eqb c' "}").
  - intros [= <- _]. constructor; [now split | constructor].
  - destruct (Ascii.eqb c' ","); [|discriminate].
    destruct (json.skip_ws r3) as [|q r4]; [discriminate|].
    destruct (Ascii.eqb q dquote); [|discriminate].
    destruct (json.object_items scan n r4) as [[kvs' r5]|] eqn:Hkvs;
      [|discriminate].
    cbn [bind]. intros [= <- _].
    constructor; [now split | now apply IH in Hkvs].
Qed.

Lemma JSONObject_plain n s v r :
  json.JSONObject scan n s = Return (v, r) -> plain v = true.
Proof.
  unfold json.JSONObject.
  destruct (json.skip_ws s) as [|c r0]; [discriminate|].
  destruct (Ascii.eqb c "}"); [now intros [= <- _]|].
  destruct (Ascii.eqb c dquote); [|discriminate].
  destruct (json.object_items scan n r0) as [[kvs r']|] eqn:H; [|discriminate].
  cbn [bind]. intros [= <- _].
  apply dict_of_pairs_plain. now apply object_items_plain in H.
Qed.

End ScannedContainers.

Lemma scan_constant_or_number_plain s v r :
  json.scan_constant_or_number s = Return (v, r) -> plain v = true.
Proof.
  unfold json.scan_constant_or_number.
  destruct (json.strip_prefix "null" s); [now intros [= <- _]|].
  destruct (json.strip_prefix "true" s); [now intros [= <- _]|].
  destruct (json.strip_prefix "false" s); [now intros [= <- _]|].
  destruct (json.match_integer s) as [[i rest]|].
  - destruct (json.float_follows rest); [discriminate | now intros [= <- _]].
  - destruct (json.strip_prefix "NaN" s), (json.strip_prefix "Infinity" s),
      (json.strip_prefix "-Infinity" s); discriminate.
Qed.

Lemma scan_once_plain fuel : forall s v r,
  json.scan_once fuel s = Return (v, r) -> plain v = true.
Proof.
  induction fuel as [|f IH]; intros s v r; [discriminate|].
  destruct s as [|c s]; [discriminate|]. cbn [json.scan_once].
  destruct (Ascii.eqb c dquote).
  - destruct (json.scanstring s) as [[str rest]|]; [|discriminate].
    now intros [= <- _].
  - destruct (Ascii.eqb c "{"); [now apply JSONObject_plain|].
    destruct (Ascii.eqb c "["); [now apply JSONArray_plain|].
    apply scan_constant_or_number_plain.
Qed.

Lemma loads_plain s v : json.loads s = Return v -> plain v = true.
Proof.
  unfold json.loads.
  destruct (json.scan_once (S (String.length s)) (json.skip_ws s))
    as [[o rest]|] eqn:H; [|discriminate].
  cbn [bind]. destruct (json.skip_ws rest); [|discriminate].
  intros [= <-]. now apply scan_once_plain in H.
Qed.

(** * Properties of the script *)

(** ** What [generate_inventory] can return *)

Lemma truthy_dict_lookup k d v :
  Py.lookup k d = Some v -> Py.truthy (VDict d) = true.
Proof. destruct d; [discriminate | reflexivity]. Qed.

Lemma add_host_returns name k public_ip private_ip :
  Py.hashable name = Return k ->
  (inventory <- Py.within "webservers"
                  (Py.within "hosts" (Py.append name)) initial_inventory ;;
   inventory <- Py.within "_meta"
                  (Py.within "hostvars"
                     (Py.setitem name (host_record public_ip private_ip name)))
                  inventory ;;
   Return inventory)
  = Return (populated_inventory name k (host_record public_ip private_ip name)).
Proof.
  intros Hk. cbn. rewrite Hk. reflexivity.
Qed.

Lemma add_host_raises name e public_ip private_ip :
  Py.hashable name = Raise e ->
  (inventory <- Py.within "webservers"
                  (Py.within "hosts" (Py.append name)) initial_inventory ;;
   inventory <- Py.within "_meta"
                  (Py.within "hostvars"
                     (Py.setitem name (host_record public_ip private_ip name)))
                  inventory ;;
   Return inventory)
  = Raise e.
Proof.
  intros Hk. cbn. rewrite Hk. reflexivity.
Qed.

(** The three shapes of a returned inventory. *)
Lemma generate_inventory_from_cases tf_outputs inventory :
  generate_inventory_from tf_outputs = Return inventory ->
  (Py.truthy tf_outputs = false /\ inventory = empty_inventory) \/
  (Py.truthy tf_outputs = true /\
   (inventory = initial_inventory \/
    exists name k public_ip private_ip,
      Py.hashable name = Return k /\ Py.truthy public_ip = true /\
      inventory =
        populated_inventory name k (host_record public_ip private_ip name))).
Proof.
  unfold generate_inventory_from.
  destruct (Py.truthy tf_outputs); cbn [negb].
  2: { intros [= <-]. now left. }
  intros H. right. split; [reflexivity|].
  destruct (Py.contains tf_outputs "vm_connection") as [[|]|]; cbn [bind] in H;
    [ | injection H as <-; now left | discriminate ].
  destruct (Py.getitem tf_outputs "vm_connection") as [entry|]; cbn [bind] in H;
    [ | discriminate ].
  destruct (Py.getitem entry "value") as [vm_conn|]; cbn [bind] in H;
    [ | discriminate ].
  destruct (Py.get vm_conn "vm_name" (VStr "unknown")) as [vm_name|];
    cbn [bind] in H; [ | discriminate ].
  destruct (Py.get vm_conn "public_ip" (VStr "")) as [public_ip|];
    cbn [bind] in H; [ | discriminate ].
  destruct (Py.get vm_conn "private_ip" (VStr "")) as [private_ip|];
    cbn [bind] in H; [ | discriminate ].
  destruct (Py.truthy public_ip) eqn:Hip; [ | injection H as <-; now left ].
  destruct (Py.hashable vm_name) as [k|e] eqn:Hk.
  - rewrite (add_host_returns _ _ public_ip private_ip Hk) in H.
    injection H as <-. right. now exists vm_name, k, public_ip, private_ip.
  - rewrite (add_host_raises _ _ public_ip private_ip Hk) in H. discriminate.
Qed.

Lemma generate_inventory_from_empty :
  generate_inventory_from (VDict []) = Return empty_inventory.
Proof. reflexivity. Qed.

(** A mapping without a [vm_connection] entry gives the bare group. *)
Lemma generate_inventory_from_absent d :
  d <> [] ->
  Py.lookup (KStr "vm_connection") d = None ->
  generate_inventory_from (VDict d) = Return initial_inventory.
Proof.
  intros Hd Hl. unfold generate_inventory_from.
  destruct d; [congruence|]. cbn [Py.truthy negb Py.contains bind].
  rewrite Hl. reflexivity.
Qed.

(** A connection value is read by three calls of [get]. *)
Lemma generate_inventory_from_connection d entry conn :
  Py.lookup (KStr "vm_connection") d = Some entry ->
  Py.getitem entry "value" = Return (VDict conn) ->
  generate_inventory_from (VDict d) =
    (vm_name <- Py.get (VDict conn) "vm_name" (VStr "unknown") ;;
     public_ip <- Py.get (VDict conn) "public_ip" (VStr "") ;;
     private_ip <- Py.get (VDict conn) "private_ip" (VStr "") ;;
     if Py.truthy public_ip then
       inventory <- Py.within "webservers"
                      (Py.within "hosts" (Py.append vm_name)) initial_inventory ;;
       inventory <- Py.within "_meta"
                      (Py.within "hostvars"
                         (Py.setitem vm_name
                            (host_record public_ip private_ip vm_name)))
                      inventory ;;
       Return inventory
     else Return initial_inventory).
Proof.
  intros Hl Hv. unfold generate_inventory_from.
  rewrite (truthy_dict_lookup _ _ _ Hl). cbn [negb Py.contains Py.getitem bind].
  rewrite Hl. cbn [bind]. fold (Py.getitem entry "value"). rewrite Hv.
  reflexivity.
Qed.

(** The run-level function is the document-level one after the tool's
    output has been obtained. *)
Lemma generate_inventory_obtained w log tf_outputs :
  get_terraform_output w = (log, Return tf_outputs) ->
  generate_inventory w = (log, generate_inventory_from tf_outputs).
Proof.
  intros H. unfold generate_inventory. rewrite H. reflexivity.
Qed.

Lemma generate_inventory_returned w log inventory :
  generate_inventory w = (log, Return inventory) ->
  exists tf_outputs,
    get_terraform_output w = (log, Return tf_outputs) /\
    generate_inventory_from tf_outputs = Return inventory.
Proof.
  unfold generate_inventory.
  destruct (get_terraform_output w) as [log' [tf_outputs|e]]; cbn [bind].
  - intros [= <- H]. now exists tf_outputs.
  - discriminate.
Qed.

(** The two handled failures leave an empty mapping and one message. *)
Lemma get_terraform_output_nonzero rc out :
  rc <> 0%Z ->
  get_terraform_output (Exited rc out) =
    ([Message "Error getting Terraform output: " (CalledProcessError rc)],
     Return (VDict [])).
Proof.
  intros Hrc. unfold get_terraform_output, subprocess.run.
  destruct (Z.eqb_spec rc 0); [contradiction | reflexivity].
Qed.

Lemma get_terraform_output_malformed out :
  json.loads out = Raise JSONDecodeError ->
  get_terraform_output (Exited 0 out) =
    ([Message "Error parsing Terraform JSON: " JSONDecodeError],
     Return (VDict [])).
Proof.
  intros H. unfold get_terraform_output, subprocess.run.
  cbn [Z.eqb bind subprocess.stdout]. rewrite H. reflexivity.
Qed.

Lemma main_handled_failure rc out :
  rc <> 0%Z \/ json.loads out = Raise JSONDecodeError ->
  exists text e,
    main (Exited rc out) =
      {| stdout := empty_document;
         stderr := [Message text e];
         exit_status := 0 |}.
Proof.
  intros H. destruct (Z.eqb_spec rc 0) as [->|Hrc].
  - destruct H as [H|H]; [congruence|].
    exists "Error parsing Terraform JSON: ", JSONDecodeError.
    unfold main, generate_inventory.
    rewrite (get_terraform_output_malformed _ H). reflexivity.
  - exists "Error getting Terraform output: ", (CalledProcessError rc).
    unfold main, generate_inventory.
    rewrite (get_terraform_output_nonzero _ out Hrc). reflexivity.
Qed.

(** One run in full: the tool reports a connection, the script prints the
    inventory with two spaces of indentation. *)
Example main_prints_one_host :
  main (Exited 0 (json_text
    "{'vm_connection': {'sensitive': false, 'value': {'private_ip': '10.1.0.4', 'public_ip': '10.0.0.4', 'vm_name': 'web-1'}}}"))
  = {| stdout := json_text "{
  'webservers': {
    'hosts': [
      'web-1'
    ],
    'vars': {
      'ansible_user': 'azureuser',
      'ansible_ssh_private_key_file': '~/.ssh/terraform-demo/id_rsa',
      'ansible_ssh_common_args': '-o StrictHostKeyChecking=no'
    }
  },
  '_meta': {
    'hostvars': {
      'web-1': {
        'ansible_host': '10.0.0.4',
        'private_ip': '10.1.0.4',
        'vm_name': 'web-1'
      }
    }
  }
}
";
       stderr := [];
       exit_status := 0 |}.
Proof. vm_compute. reflexivity. Qed.

(** ** The claims about the generated inventory *)

(** C1, as amended.  When the obtained document has a [vm_connection] entry
    whose value has a non-empty [public_ip] and a [vm_name] that is hashable
    (a string, a number, a boolean or null), [generate_inventory] returns an
    inventory with exactly one host in [webservers.hosts]; the host's name
    is the [vm_name] field, and [_meta.hostvars] maps that name, and nothing
    else, to a record whose [ansible_host] is the [public_ip]. *)
Theorem one_host_with_matching_name_and_address :
  forall w log d entry conn public_ip name k,
    get_terraform_output w = (log, Return (VDict d)) ->
    Py.lookup (KStr "vm_connection") d = Some entry ->
    Py.getitem entry "value" = Return (VDict conn) ->
    Py.lookup (KStr "public_ip") conn = Some public_ip ->
    Py.truthy public_ip = true ->
    Py.lookup (KStr "vm_name") conn = Some name ->
    Py.hashable name = Return k ->
    exists inventory record,
      generate_inventory w = (log, Return inventory) /\
      group_hosts inventory = [name] /\
      hostvars inventory = [(k, record)] /\
      Py.getitem record "ansible_host" = Return public_ip.
Proof.
  intros w log d entry conn public_ip name k
         Hget Hentry Hvalue Hip Htrue Hname Hk.
  rewrite (generate_inventory_obtained _ _ _ Hget).
  rewrite (generate_inventory_from_connection _ _ _ Hentry Hvalue).
  cbn [Py.get bind]. rewrite Hip, Hname, Htrue.
  rewrite (add_host_returns _ _ _ _ Hk).
  eexists. eexists. repeat split.
Qed.

Lemma one_host_with_matching_name_and_address_witness :
  exists inventory record,
    generate_inventory
      (Exited 0 (json_text
         "{'vm_connection': {'value': {'vm_name': 'web-1', 'public_ip': '10.0.0.4'}}}"))
    = ([], Return inventory) /\
    group_hosts inventory = [VStr "web-1"] /\
    hostvars inventory = [(KStr "web-1", record)] /\
    Py.getitem record "ansible_host" = Return (VStr "10.0.0.4").
Proof.
  apply (one_host_with_matching_name_and_address
           (Exited 0 (json_text
              "{'vm_connection': {'value': {'vm_name': 'web-1', 'public_ip': '10.0.0.4'}}}"))
           []
           [(KStr "vm_connection",
             VDict [(KStr "value",
                     VDict [(KStr "vm_name", VStr "web-1");
                            (KStr "public_ip", VStr "10.0.0.4")])])]
           (VDict [(KStr "value",
                    VDict [(KStr "vm_name", VStr "web-1");
                           (KStr "public_ip", VStr "10.0.0.4")])])
           [(KStr "vm_name", VStr "web-1"); (KStr "public_ip", VStr "10.0.0.4")]
           (VStr "10.0.0.4") (VStr "web-1") (KStr "web-1"));
    reflexivity.
Defined.

(** C1, as stated, fails: a list-valued [vm_name] next to a non-empty
    [public_ip] is appended to the host list, but cannot be a key of
    [hostvars]; the assignment raises [TypeError], no inventory is returned
    and nothing is printed. *)
Lemma list_valued_name_returns_no_inventory :
  let w := Exited 0 (json_text
    "{'vm_connection': {'value': {'vm_name': ['web-1', 'web-2'], 'public_ip': '10.0.0.4'}}}") in
  let conn := [(KStr "vm_name", VList [VStr "web-1"; VStr "web-2"]);
               (KStr "public_ip", VStr "10.0.0.4")] in
  let d := [(KStr "vm_connection", VDict [(KStr "value", VDict conn)])] in
  get_terraform_output w = ([], Return (VDict d)) /\
  Py.lookup (KStr "public_ip") conn = Some (VStr "10.0.0.4") /\
  Py.truthy (VStr "10.0.0.4") = true /\
  generate_inventory w = ([], Raise TypeError) /\
  stdout (main w) = "".
Proof. vm_compute. repeat split. Qed.



(** C9.  A connection value with a non-empty [public_ip] and no [vm_name]
    key still adds one host, named by the literal [unknown] in the host list,
    in [hostvars] and in the record; a missing [private_ip] is recorded as
    the empty string. *)
Theorem missing_name_defaults_to_unknown :
  forall w log d entry conn public_ip,
    get_terraform_output w = (log, Return (VDict d)) ->
    Py.lookup (KStr "vm_connection") d = Some entry ->
    Py.getitem entry "value" = Return (VDict conn) ->
    Py.lookup (KStr "public_ip") conn = Some public_ip ->
    Py.truthy public_ip = true ->
    Py.lookup (KStr "vm_name") conn = None ->
    exists inventory record,
      generate_inventory w = (log, Return inventory) /\
      group_hosts inventory = [VStr "unknown"] /\
      hostvars inventory = [(KStr "unknown", record)] /\
      Py.getitem record "vm_name" = Return (VStr "unknown") /\
      Py.getitem record "ansible_host" = Return public_ip /\
      (Py.lookup (KStr "private_ip") conn = None ->
       Py.getitem record "private_ip" = Return (VStr "")).
Proof.
  intros w log d entry conn public_ip Hget Hentry Hvalue Hip Htrue Hname.
  rewrite (generate_inventory_obtained _ _ _ Hget).
  rewrite (generate_inventory_from_connection _ _ _ Hentry Hvalue).
  cbn [Py.get bind]. rewrite Hip, Hname, Htrue.
  rewrite (add_host_returns (VStr "unknown") (KStr "unknown")) by reflexivity.
  eexists. eexists. repeat split.
  intros Hprivate. rewrite Hprivate. reflexivity.
Qed.

Lemma missing_name_defaults_to_unknown_witness :
  exists inventory record,
    generate_inventory
      (Exited 0 (json_text "{'vm_connection': {'value': {'public_ip': '10.0.0.4'}}}"))
    = ([], Return inventory) /\
    group_hosts inventory = [VStr "unknown"] /\
    hostvars inventory = [(KStr "unknown", record)] /\
    Py.getitem record "vm_name" = Return (VStr "unknown") /\
    Py.getitem record "ansible_host" = Return (VStr "10.0.0.4") /\
    (Py.lookup (KStr "private_ip") [(KStr "public_ip", VStr "10.0.0.4")] = None ->
     Py.getitem record "private_ip" = Return (VStr "")).
Proof.
  apply (missing_name_defaults_to_unknown
           (Exited 0 (json_text "{'vm_connection': {'value': {'public_ip': '10.0.0.4'}}}"))
           []
           [(KStr "vm_connection",
             VDict [(KStr "value", VDict [(KStr "public_ip", VStr "10.0.0.4")])])]
           (VDict [(KStr "value", VDict [(KStr "public_ip", VStr "10.0.0.4")])])
           [(KStr "public_ip", VStr "10.0.0.4")]
           (VStr "10.0.0.4"));
    reflexivity.
Defined.



(** C8.  In every inventory that [generate_inventory] returns, the host
    names of the [webservers] group are, as dict keys, the keys of
    [_meta.hostvars], and there is at most one of them. *)
Theorem hosts_match_hostvars :
  forall w log inventory,
    generate_inventory w = (log, Return inventory) ->
    map Py.hashable (group_hosts inventory)
      = map Return (map fst (hostvars inventory)) /\
    List.length (group_hosts inventory) <= 1 /\
    List.length (hostvars inventory) <= 1.
Proof.
  intros w log inventory H.
  destruct (generate_inventory_returned _ _ _ H) as (tf & _ & Hgen).
  destruct (generate_inventory_from_cases _ _ Hgen)
    as [[_ ->] | [_ [-> | (name & k & pub & priv & Hk & _ & ->)]]].
  - cbn. auto.
  - cbn. auto.
  - cbn. rewrite Hk. auto.
Qed.

Lemma hosts_match_hostvars_witness :
  map Py.hashable
    (group_hosts
       (populated_inventory (VStr "web-1") (KStr "web-1")
          (host_record (VStr "10.0.0.4") (VStr "") (VStr "web-1"))))
  = map Return
      (map fst
         (hostvars
            (populated_inventory (VStr "web-1") (KStr "web-1")
               (host_record (VStr "10.0.0.4") (VStr "") (VStr "web-1"))))) /\
  List.length
    (group_hosts
       (populated_inventory (VStr "web-1") (KStr "web-1")
          (host_record (VStr "10.0.0.4") (VStr "") (VStr "web-1")))) <= 1 /\
  List.length
    (hostvars
       (populated_inventory (VStr "web-1") (KStr "web-1")
          (host_record (VStr "10.0.0.4") (VStr "") (VStr "web-1")))) <= 1.
Proof.
  apply (hosts_match_hostvars
           (Exited 0 (json_text
              "{'vm_connection': {'value': {'vm_name': 'web-1', 'public_ip': '10.0.0.4'}}}"))
           []).
  vm_compute. reflexivity.
Defined.

(** ** When a mapping makes [generate_inventory] return *)

Lemma generate_inventory_from_entry d entry :
  Py.lookup (KStr "vm_connection") d = Some entry ->
  generate_inventory_from (VDict d) =
    (vm_conn <- Py.getitem entry "value" ;;
     vm_name <- Py.get vm_conn "vm_name" (VStr "unknown") ;;
     public_ip <- Py.get vm_conn "public_ip" (VStr "") ;;
     private_ip <- Py.get vm_conn "private_ip" (VStr "") ;;
     if Py.truthy public_ip then
       inventory <- Py.within "webservers"
                      (Py.within "hosts" (Py.append vm_name)) initial_inventory ;;
       inventory <- Py.within "_meta"
                      (Py.within "hostvars"
                         (Py.setitem vm_name
                            (host_record public_ip private_ip vm_name)))
                      inventory ;;
       Return inventory
     else Return initial_inventory).
Proof.
  intros Hl. unfold generate_inventory_from.
  rewrite (truthy_dict_lookup _ _ _ Hl). cbn [negb Py.contains Py.getitem bind].
  rewrite Hl. reflexivity.
Qed.

Lemma has_group_initial : has_group initial_inventory.
Proof. split; reflexivity. Qed.

Lemma has_group_populated name k record :
  has_group (populated_inventory name k record).
Proof. split; reflexivity. Qed.

(** On a non-empty mapping, [connection_ok] decides between an inventory
    with the group and an exception. *)
Lemma generate_inventory_from_mapping d :
  d <> [] ->
  if connection_ok d
  then exists inventory,
         generate_inventory_from (VDict d) = Return inventory /\
         has_group inventory
  else exists e, generate_inventory_from (VDict d) = Raise e.
Proof.
  intros Hd. unfold connection_ok.
  destruct (Py.lookup (KStr "vm_connection") d) as [entry|] eqn:Hentry.
  2: { exists initial_inventory. split; [|apply has_group_initial].
       now apply generate_inventory_from_absent. }
  rewrite (generate_inventory_from_entry _ _ Hentry).
  destruct entry as [ | | | | | e]; try (eexists; reflexivity).
  cbn [Py.getitem].
  destruct (Py.lookup (KStr "value") e) as [vm_conn|]; [|eexists; reflexivity].
  cbn [bind].
  destruct vm_conn as [ | | | | | conn]; try (eexists; reflexivity).
  cbn [Py.get bind].
  destruct (Py.lookup (KStr "public_ip") conn) as [public_ip|].
  2: { exists initial_inventory. split; [reflexivity|apply has_group_initial]. }
  destruct (Py.truthy public_ip).
  2: { exists initial_inventory. split; [reflexivity|apply has_group_initial]. }
  destruct (Py.lookup (KStr "vm_name") conn) as [[ | b | z | s | l | m]|];
    try (eexists; split;
         [ apply add_host_returns; reflexivity | apply has_group_populated ]);
    (eexists; apply add_host_raises; reflexivity).
Qed.

(** ** The claims about failures and the empty document *)










(** ** The inventory is built from plain parts *)

Lemma lookup_plain name d v :
  plain (VDict d) = true -> Py.lookup (KStr name) d = Some v -> plain v = true.
Proof.
  intros Hd. destruct (plain_dict _ Hd) as (_ & Hvals & _). clear Hd.
  induction Hvals as [|[k0 v0] d Hv0 _ IH]; [discriminate|].
  cbn [Py.lookup]. destruct (Py.key_eqb k0 (KStr name)); [|exact IH].
  now intros [= <-].
Qed.

Lemma getitem_plain o name v :
  plain o = true -> Py.getitem o name = Return v -> plain v = true.
Proof.
  intros Ho. destruct o; try discriminate. cbn [Py.getitem].
  destruct (Py.lookup (KStr name) entries) eqn:E; [|discriminate].
  intros [= <-]. eapply lookup_plain; eassumption.
Qed.

Lemma get_plain o name default v :
  plain o = true -> plain default = true ->
  Py.get o name default = Return v -> plain v = true.
Proof.
  intros Ho Hd. destruct o; try discriminate. cbn [Py.get].
  destruct (Py.lookup (KStr name) entries) eqn:E; intros [= <-].
  - eapply lookup_plain; eassumption.
  - exact Hd.
Qed.

Lemma get_terraform_output_plain w log tf_outputs :
  get_terraform_output w = (log, Return tf_outputs) -> plain tf_outputs = true.
Proof.
  unfold get_terraform_output, subprocess.run.
  destruct w as [why | rc out].
  - destruct why; discriminate.
  - destruct (Z.eqb rc 0); cbn [bind subprocess.stdout].
    + destruct (json.loads out) as [v|e] eqn:E.
      * intros [= _ <-]. now apply loads_plain in E.
      * destruct e; intros [= _ <-]; reflexivity.
    + now intros [= _ <-].
Qed.

Lemma generate_inventory_from_plain tf_outputs inventory :
  plain tf_outputs = true ->
  generate_inventory_from tf_outputs = Return inventory ->
  (forall h, In h (group_hosts inventory) -> exists s, h = VStr s) ->
  plain inventory = true.
Proof.
  intros Hplain. unfold generate_inventory_from.
  destruct (Py.truthy tf_outputs); cbn [negb].
  2: { now intros [= <-]. }
  destruct (Py.contains tf_outputs "vm_connection") as [[|]|]; cbn [bind];
    [ | now intros [= <-] | discriminate ].
  destruct (Py.getitem tf_outputs "vm_connection") as [entry|] eqn:He;
    cbn [bind]; [ | discriminate ].
  apply (getitem_plain _ _ _ Hplain) in He.
  destruct (Py.getitem entry "value") as [vm_conn|] eqn:Hc; cbn [bind];
    [ | discriminate ].
  apply (getitem_plain _ _ _ He) in Hc.
  destruct (Py.get vm_conn "vm_name" (VStr "unknown")) as [vm_name|] eqn:Hn;
    cbn [bind]; [ | discriminate ].
  destruct (Py.get vm_conn "public_ip" (VStr "")) as [public_ip|] eqn:Hpub;
    cbn [bind]; [ | discriminate ].
  apply (get_plain _ _ (VStr "") _ Hc eq_refl) in Hpub.
  destruct (Py.get vm_conn "private_ip" (VStr "")) as [private_ip|] eqn:Hpriv;
    cbn [bind]; [ | discriminate ].
  apply (get_plain _ _ (VStr "") _ Hc eq_refl) in Hpriv.
  destruct (Py.truthy public_ip); [ | now intros [= <-] ].
  destruct (Py.hashable vm_name) as [k|e] eqn:Hk.
  - rewrite (add_host_returns _ _ public_ip private_ip Hk).
    intros [= <-] Hhosts.
    destruct (Hhosts vm_name) as (s & ->); [now left|].
    injection Hk as <-. cbn. now rewrite Hpub, Hpriv.
  - rewrite (add_host_raises _ _ public_ip private_ip Hk). discriminate.
Qed.




(** * Further properties of the script *)

(** ** Which exceptions the decoder raises *)

Lemma prepend_raises c r e : json.prepend c r = Raise e -> r = Raise e.
Proof. destruct r as [[s rest]|e']; [discriminate | now intros [= ->]]. Qed.

Lemma scanstring_raises n : forall s e,
  String.length s <= n ->
  json.scanstring s = Raise e -> e = JSONDecodeError \/ e = Unmodelled.
Proof.
  induction n as [|n IH]; intros s e Hn.
  - destruct s; [cbn; intros [= <-]; now left | cbn in Hn; lia].
  - destruct s as [|c r]; [cbn; intros [= <-]; now left|].
    cbn [String.length] in Hn. cbn [json.scanstring].
    destruct (Ascii.eqb c dquote); [discriminate|].
    destruct (Ascii.eqb c "\").
    + destruct r as [|esc r1]; [intros [= <-]; now left|].
      cbn [String.length] in Hn.
      destruct (Ascii.eqb esc "u").
      * destruct r1 as [|h1 [|h2 [|h3 [|h4 r2]]]];
          try (intros [= <-]; now left).
        cbn [String.length] in Hn.
        destruct (json.decode_uXXXX h1 h2 h3 h4) as [m|];
          [|intros [= <-]; now left].
        destruct (Nat.ltb m 256); [|intros [= <-]; now right].
        intros H. apply prepend_raises in H. apply (IH r2); [lia | exact H].
      * destruct (json.unescape esc); [|intros [= <-]; now left].
        intros H. apply prepend_raises in H. apply (IH r1); [lia | exact H].
    + destruct (Nat.ltb (nat_of_ascii c) 32); [intros [= <-]; now left|].
      intros H. apply prepend_raises in H. apply (IH r); [lia | exact H].
Qed.

Section RaisingContainers.

Variable scan : string -> outcome (value * string).
Hypothesis scan_raises :
  forall s e, scan s = Raise e -> e = JSONDecodeError \/ e = Unmodelled.

Lemma array_items_raises n : forall s e,
  json.array_items scan n s = Raise e -> e = JSONDecodeError \/ e = Unmodelled.
Proof.
  induction n as [|n IH]; intros s e; [intros [= <-]; now right|].
  rewrite array_items_step.
  destruct (scan s) as [[v r0]|e0] eqn:Hv; cbn [bind].
  2: { intros [= <-]. eauto. }
  destruct (json.skip_ws r0) as [|c r1]; [intros [= <-]; now left|].
  destruct (Ascii.eqb c "]"); [discriminate|].
  destruct (Ascii.eqb c ","); [|intros [= <-]; now left].
  destruct (json.array_items scan n (json.skip_ws r1)) as [[vs r2]|e1] eqn:Hvs;
    cbn [bind]; [discriminate|].
  intros [= <-]. eauto.
Qed.

Lemma JSONArray_raises n s e :
  json.JSONArray scan n s = Raise e -> e = JSONDecodeError \/ e = Unmodelled.
Proof.
  unfold json.JSONArray.
  destruct (json.strip_prefix "]" (json.skip_ws s)); [discriminate|].
  destruct (json.array_items scan n (json.skip_ws s)) as [[vs r]|e0] eqn:H;
    cbn [bind]; [discriminate|].
  intros [= <-]. eapply array_items_raises; eassumption.
Qed.

Lemma object_items_raises n : forall s e,
  json.object_items scan n s = Raise e -> e = JSONDecodeError \/ e = Unmodelled.
Proof.
  induction n as [|n IH]; intros s e; [intros [= <-]; now right|].
  rewrite object_items_step.
  destruct (json.scanstring s) as [[k r0]|e0] eqn:Hk; cbn [bind].
  2: { intros [= <-]. eapply scanstring_raises; [apply Nat.le_refl | eassumption]. }
  destruct (json.skip_ws r0) as [|c r1]; [intros [= <-]; now left|].
  destruct (Ascii.eqb c ":"); [|intros [= <-]; now left].
  destruct (scan (json.skip_ws r1)) as [[v r2]|e1] eqn:Hv; cbn [bind].
  2: { intros [= <-]. eauto. }
  destruct (json.skip_ws r2) as [|c' r3]; [intros [= <-]; now left|].
  destruct (Ascii.eqb c' "}"); [discriminate|].
  destruct (Ascii.eqb c' ","); [|intros [= <-]; now left].
  destruct (json.skip_ws r3) as [|q r4]; [intros [= <-]; now left|].
  destruct (Ascii.eqb q dquote); [|intros [= <-]; now left].
  destruct (json.object_items scan n r4) as [[kvs r5]|e2] eqn:Hkvs;
    cbn [bind]; [discriminate|].
  intros [= <-]. eauto.
Qed.

Lemma JSONObject_raises n s e :
  json.JSONObject scan n s = Raise e -> e = JSONDecodeError \/ e = Unmodelled.
Proof.
  unfold json.JSONObject.
  destruct (json.skip_ws s) as [|c r0]; [intros [= <-]; now left|].
  destruct (Ascii.eqb c "}"); [discriminate|].
  destruct (Ascii.eqb c dquote); [|intros [= <-]; now left].
  destruct (json.object_items scan n r0) as [[kvs r]|e0] eqn:H;
    cbn [bind]; [discriminate|].
  intros [= <-]. eapply object_items_raises; eassumption.
Qed.

End RaisingContainers.

Lemma scan_constant_or_number_raises s e :
  json.scan_constant_or_number s = Raise e ->
  e = JSONDecodeError \/ e = Unmodelled.
Proof.
  unfold json.scan_constant_or_number.
  destruct (json.strip_prefix "null" s); [discriminate|].
  destruct (json.strip_prefix "true" s); [discriminate|].
  destruct (json.strip_prefix "false" s); [discriminate|].
  destruct (json.match_integer s) as [[i rest]|].
  - destruct (json.float_follows rest); [intros [= <-]; now right | discriminate].
  - destruct (json.strip_prefix "NaN" s), (json.strip_prefix "Infinity" s),
      (json.strip_prefix "-Infinity" s); intros [= <-]; auto.
Qed.

Lemma scan_once_raises fuel : forall s e,
  json.scan_once fuel s = Raise e -> e = JSONDecodeError \/ e = Unmodelled.
Proof.
  induction fuel as [|f IH]; intros s e; [intros [= <-]; now right|].
  destruct s as [|c s]; [intros [= <-]; now left|]. cbn [json.scan_once].
  destruct (Ascii.eqb c dquote).
  - destruct (json.scanstring s) as [[str rest]|e0] eqn:H; cbn [bind];
      [discriminate|].
    intros [= <-]. eapply scanstring_raises; [apply Nat.le_refl | eassumption].
  - destruct (Ascii.eqb c "{"); [now apply JSONObject_raises|].
    destruct (Ascii.eqb c "["); [now apply JSONArray_raises|].
    apply scan_constant_or_number_raises.
Qed.

Lemma loads_raises s e :
  json.loads s = Raise e -> e = JSONDecodeError \/ e = Unmodelled.
Proof.
  unfold json.loads.
  destruct (json.scan_once (S (String.length s)) (json.skip_ws s))
    as [[o rest]|e0] eqn:H; cbn [bind].
  - destruct (json.skip_ws rest); [discriminate | intros [= <-]; now left].
  - intros [= <-]. eapply scan_once_raises; eassumption.
Qed.

(** ** Which exceptions leave the script *)

Lemma hashable_raises o e : Py.hashable o = Raise e -> e = TypeError.
Proof. destruct o; cbn; congruence. Qed.

Lemma generate_inventory_from_raises tf_outputs e :
  generate_inventory_from tf_outputs = Raise e ->
  e = TypeError \/ e = KeyError "value" \/ e = AttributeError.
Proof.
  unfold generate_inventory_from.
  destruct (Py.truthy tf_outputs); cbn [negb]; [|discriminate].
  destruct tf_outputs as [ | b | z | s | items | d]; cbn [Py.contains bind];
    try (intros [= <-]; now left).
  - destruct (Py.substring_of "vm_connection" s); [|discriminate].
    cbn [Py.getitem bind]. intros [= <-]. now left.
  - destruct (existsb _ items); [|discriminate].
    cbn [Py.getitem bind]. intros [= <-]. now left.
  - cbn [Py.getitem].
    destruct (Py.lookup (KStr "vm_connection") d) as [entry|]; [|discriminate].
    cbn [bind].
    destruct entry as [ | | | | | en]; cbn [Py.getitem bind];
      try (intros [= <-]; now left).
    destruct (Py.lookup (KStr "value") en) as [vm_conn|]; cbn [bind];
      [|intros [= <-]; right; now left].
    destruct vm_conn as [ | | | | | conn]; cbn [Py.get bind];
      try (intros [= <-]; right; now right).
    destruct (Py.truthy _); [|discriminate].
    match goal with
    | |- context [Py.append ?name] =>
        destruct (Py.hashable name) as [k|e0] eqn:Hk
    end.
    + erewrite add_host_returns by exact Hk. discriminate.
    + erewrite add_host_raises by exact Hk.
      intros [= <-]. left. eapply hashable_raises; eassumption.
Qed.



(** ** Runs that print the empty document *)

Lemma get_terraform_output_decoded out v :
  json.loads out = Return v ->
  get_terraform_output (Exited 0 out) = ([], Return v).
Proof.
  intros H. unfold get_terraform_output, subprocess.run.
  cbn [Z.eqb bind subprocess.stdout]. now rewrite H.
Qed.





(** X4.  When the tool cannot be started or its output is not text, the
    exception of [subprocess.run] is not handled: the script prints nothing,
    logs no message of its own, ends with the traceback of that exception
    and exits with status one. *)
Theorem start_failures_propagate :
  forall why,
    main (Failed why) =
      {| stdout := "";
         stderr := [Traceback (subprocess.raised why)];
         exit_status := 1 |} /\
    subprocess.raised why <> JSONDecodeError /\
    forall rc, subprocess.raised why <> CalledProcessError rc.
Proof.
  intros why. destruct why; (split; [reflexivity|]); split; try intros rc;
    discriminate.
Qed.

(** ** A connection entry that the script cannot read *)

(** X5.  A [vm_connection] entry that is not a mapping raises [TypeError];
    one that is a mapping without the key [value] (an output written
    without its wrapper) raises [KeyError] for [value]; one whose [value] is
    not a mapping raises [AttributeError].  In each case nothing is printed
    and the exit status is one. *)
Theorem unreadable_connection_raises :
  forall w log d entry,
    get_terraform_output w = (log, Return (VDict d)) ->
    Py.lookup (KStr "vm_connection") d = Some entry ->
    ((forall en, entry <> VDict en) ->
     generate_inventory w = (log, Raise TypeError)) /\
    (forall en,
       entry = VDict en -> Py.lookup (KStr "value") en = None ->
       generate_inventory w = (log, Raise (KeyError "value"))) /\
    (forall en v,
       entry = VDict en -> Py.lookup (KStr "value") en = Some v ->
       (forall conn, v <> VDict conn) ->
       generate_inventory w = (log, Raise AttributeError)) /\
    (forall e, generate_inventory w = (log, Raise e) ->
       stdout (main w) = "" /\ exit_status (main w) = 1%Z).
Proof.
  intros w log d entry Hget Hentry.
  split; [|split; [|split]].
  - intros Hnot. rewrite (generate_inventory_obtained _ _ _ Hget).
    rewrite (generate_inventory_from_entry _ _ Hentry).
    destruct entry; try reflexivity. now elim (Hnot entries).
  - intros en -> Hnone. rewrite (generate_inventory_obtained _ _ _ Hget).
    rewrite (generate_inventory_from_entry _ _ Hentry).
    cbn [Py.getitem]. now rewrite Hnone.
  - intros en v -> Hsome Hnot. rewrite (generate_inventory_obtained _ _ _ Hget).
    rewrite (generate_inventory_from_entry _ _ Hentry).
    cbn [Py.getitem]. rewrite Hsome. cbn [bind].
    destruct v; try reflexivity. now elim (Hnot entries).
  - intros e He. unfold main. rewrite He. split; reflexivity.
Qed.

Lemma unreadable_connection_raises_witness :
  let w := Exited 0 (json_text
    "{'vm_connection': {'vm_name': 'web-1', 'public_ip': '10.0.0.4'}}") in
  let entry := VDict [(KStr "vm_name", VStr "web-1");
                      (KStr "public_ip", VStr "10.0.0.4")] in
  ((forall en, entry <> VDict en) ->
   generate_inventory w = ([], Raise TypeError)) /\
  (forall en,
     entry = VDict en -> Py.lookup (KStr "value") en = None ->
     generate_inventory w = ([], Raise (KeyError "value"))) /\
  (forall en v,
     entry = VDict en -> Py.lookup (KStr "value") en = Some v ->
     (forall conn, v <> VDict conn) ->
     generate_inventory w = ([], Raise AttributeError)) /\
  (forall e, generate_inventory w = ([], Raise e) ->
     stdout (main w) = "" /\ exit_status (main w) = 1%Z).
Proof.
  apply (unreadable_connection_raises
           (Exited 0 (json_text
              "{'vm_connection': {'vm_name': 'web-1', 'public_ip': '10.0.0.4'}}"))
           []
           [(KStr "vm_connection",
             VDict [(KStr "vm_name", VStr "web-1");
                    (KStr "public_ip", VStr "10.0.0.4")])]);
    reflexivity.
Defined.

(** ** What the inventory depends on *)

(** X6.  The inventory depends on the tool's outputs only through the
    fields [vm_name], [public_ip] and [private_ip] of the [vm_connection]
    value: two runs whose connection values agree on these three fields
    print the same text, whatever else the outputs hold. *)
Theorem inventory_depends_on_three_fields :
  forall w w' log log' d d' entry entry' conn conn',
    get_terraform_output w = (log, Return (VDict d)) ->
    get_terraform_output w' = (log', Return (VDict d')) ->
    Py.lookup (KStr "vm_connection") d = Some entry ->
    Py.lookup (KStr "vm_connection") d' = Some entry' ->
    Py.getitem entry "value" = Return (VDict conn) ->
    Py.getitem entry' "value" = Return (VDict conn') ->
    Py.lookup (KStr "vm_name") conn = Py.lookup (KStr "vm_name") conn' ->
    Py.lookup (KStr "public_ip") conn = Py.lookup (KStr "public_ip") conn' ->
    Py.lookup (KStr "private_ip") conn = Py.lookup (KStr "private_ip") conn' ->
    snd (generate_inventory w) = snd (generate_inventory w') /\
    stdout (main w) = stdout (main w') /\
    exit_status (main w) = exit_status (main w').
Proof.
  intros w w' log log' d d' entry entry' conn conn'
         Hget Hget' Hentry Hentry' Hvalue Hvalue' Hname Hpub Hpriv.
  assert (Hsame : generate_inventory_from (VDict d)
                  = generate_inventory_from (VDict d')).
  { rewrite (generate_inventory_from_connection _ _ _ Hentry Hvalue).
    rewrite (generate_inventory_from_connection _ _ _ Hentry' Hvalue').
    cbn [Py.get]. now rewrite Hname, Hpub, Hpriv. }
  unfold main.
  rewrite (generate_inventory_obtained _ _ _ Hget).
  rewrite (generate_inventory_obtained _ _ _ Hget').
  cbn [snd]. rewrite Hsame.
  destruct (generate_inventory_from (VDict d')); repeat split.
Qed.

Lemma inventory_depends_on_three_fields_witness :
  let w := Exited 0 (json_text
    "{'resource_group': {'value': 'rg-dev'}, 'vm_connection': {'sensitive': false, 'type': 'object', 'value': {'ssh_command': 'ssh azureuser@10.0.0.4', 'public_ip': '10.0.0.4', 'vm_name': 'web-1'}}}") in
  let w' := Exited 0 (json_text
    "{'vm_connection': {'value': {'vm_name': 'web-1', 'public_ip': '10.0.0.4'}}}") in
  snd (generate_inventory w) = snd (generate_inventory w') /\
  stdout (main w) = stdout (main w') /\
  exit_status (main w) = exit_status (main w').
Proof.
  apply (inventory_depends_on_three_fields
           (Exited 0 (json_text
    "{'resource_group': {'value': 'rg-dev'}, 'vm_connection': {'sensitive': false, 'type': 'object', 'value': {'ssh_command': 'ssh azureuser@10.0.0.4', 'public_ip': '10.0.0.4', 'vm_name': 'web-1'}}}"))
           (Exited 0 (json_text
    "{'vm_connection': {'value': {'vm_name': 'web-1', 'public_ip': '10.0.0.4'}}}"))
           [] []
           [(KStr "resource_group", VDict [(KStr "value", VStr "rg-dev")]);
            (KStr "vm_connection",
             VDict [(KStr "sensitive", VBool false);
                    (KStr "type", VStr "object");
                    (KStr "value",
                     VDict [(KStr "ssh_command", VStr "ssh azureuser@10.0.0.4");
                            (KStr "public_ip", VStr "10.0.0.4");
                            (KStr "vm_name", VStr "web-1")])])]
           [(KStr "vm_connection",
             VDict [(KStr "value",
                     VDict [(KStr "vm_name", VStr "web-1");
                            (KStr "public_ip", VStr "10.0.0.4")])])]
           (VDict [(KStr "sensitive", VBool false);
                   (KStr "type", VStr "object");
                   (KStr "value",
                    VDict [(KStr "ssh_command", VStr "ssh azureuser@10.0.0.4");
                           (KStr "public_ip", VStr "10.0.0.4");
                           (KStr "vm_name", VStr "web-1")])])
           (VDict [(KStr "value",
                    VDict [(KStr "vm_name", VStr "web-1");
                           (KStr "public_ip", VStr "10.0.0.4")])])
           [(KStr "ssh_command", VStr "ssh azureuser@10.0.0.4");
            (KStr "public_ip", VStr "10.0.0.4");
            (KStr "vm_name", VStr "web-1")]
           [(KStr "vm_name", VStr "web-1"); (KStr "public_ip", VStr "10.0.0.4")]);
    reflexivity.
Defined.

(** X7.  In every inventory that [generate_inventory] returns, a record of
    [_meta.hostvars] has exactly the fields [ansible_host], [private_ip] and
    [vm_name], in this order; its [ansible_host] is truthy, its [vm_name] is
    the host listed in the group, and its key is that host name. *)
Theorem hostvars_record_shape :
  forall w log inventory k record,
    generate_inventory w = (log, Return inventory) ->
    In (k, record) (hostvars inventory) ->
    exists public_ip private_ip name,
      record = VDict [(KStr "ansible_host", public_ip);
                      (KStr "private_ip", private_ip);
                      (KStr "vm_name", name)] /\
      Py.truthy public_ip = true /\
      group_hosts inventory = [name] /\
      Py.hashable name = Return k.
Proof.
  intros w log inventory k record H Hin.
  destruct (generate_inventory_returned _ _ _ H) as (tf & _ & Hgen).
  destruct (generate_inventory_from_cases _ _ Hgen)
    as [[_ ->] | [_ [-> | (name & k' & pub & priv & Hk & Hpub & ->)]]];
    try contradiction.
  cbn in Hin. destruct Hin as [[= <- <-]|[]].
  exists pub, priv, name. repeat split; assumption.
Qed.

Lemma hostvars_record_shape_witness :
  exists public_ip private_ip name,
    host_record (VStr "10.0.0.4") (VStr "") (VStr "web-1")
    = VDict [(KStr "ansible_host", public_ip);
             (KStr "private_ip", private_ip);
             (KStr "vm_name", name)] /\
    Py.truthy public_ip = true /\
    group_hosts
      (populated_inventory (VStr "web-1") (KStr "web-1")
         (host_record (VStr "10.0.0.4") (VStr "") (VStr "web-1"))) = [name] /\
    Py.hashable name = Return (KStr "web-1").
Proof.
  apply (hostvars_record_shape
           (Exited 0 (json_text
              "{'vm_connection': {'value': {'vm_name': 'web-1', 'public_ip': '10.0.0.4'}}}"))
           []).
  - vm_compute. reflexivity.
  - left. reflexivity.
Defined.

(** ** Outputs that are not a mapping *)

(** X8.  A truthy output that is not a mapping never adds a host.  The
    membership test decides: where [vm_connection] is not found (a list
    without that string, a string without that substring) the bare inventory
    is returned; where it is found, or the test itself fails (a number,
    [true]), the script raises [TypeError]. *)
Theorem non_mapping_output :
  forall w log tf_outputs,
    get_terraform_output w = (log, Return tf_outputs) ->
    Py.truthy tf_outputs = true ->
    (forall d, tf_outputs <> VDict d) ->
    generate_inventory w =
      (log,
       match Py.contains tf_outputs "vm_connection" with
       | Return false =>
           Return (VDict
             [(KStr "webservers",
               VDict [(KStr "hosts", VList []); (KStr "vars", connection_vars)]);
              (KStr "_meta", VDict [(KStr "hostvars", VDict [])])])
       | _ => Raise TypeError
       end).
Proof.
  intros w log tf Hget Htrue Hnot.
  rewrite (generate_inventory_obtained _ _ _ Hget). f_equal.
  unfold generate_inventory_from. rewrite Htrue. cbn [negb].
  destruct tf as [ | b | z | s | items | d]; cbn [Py.contains bind].
  - reflexivity.
  - reflexivity.
  - reflexivity.
  - destruct (Py.substring_of "vm_connection" s); reflexivity.
  - destruct (existsb _ items); reflexivity.
  - now elim (Hnot d).
Qed.

Lemma non_mapping_output_witness :
  generate_inventory (Exited 0 (json_text "['vm_connection']")) =
    ([],
     match Py.contains (VList [VStr "vm_connection"]) "vm_connection" with
     | Return false =>
         Return (VDict
           [(KStr "webservers",
             VDict [(KStr "hosts", VList []); (KStr "vars", connection_vars)]);
            (KStr "_meta", VDict [(KStr "hostvars", VDict [])])])
     | _ => Raise TypeError
     end).
Proof.
  apply (non_mapping_output (Exited 0 (json_text "['vm_connection']")) []
           (VList [VStr "vm_connection"])).
  - vm_compute. reflexivity.
  - reflexivity.
  - discriminate.
Defined.

(** ** The printed text *)

Lemma ascii_only_append a b :
  ascii_only (a ++ b) = ascii_only a && ascii_only b.
Proof.
  induction a as [|c a IH]; [reflexivity|].
  cbn [append ascii_only]. now rewrite IH, andb_assoc.
Qed.

Lemma ascii_only_escape_char c : ascii_only (json.escape_char c) = true.
Proof. destruct c as [[] [] [] [] [] [] [] []]; reflexivity. Qed.

Lemma ascii_only_escape s : ascii_only (json.escape s) = true.
Proof.
  induction s as [|c s IH]; [reflexivity|].
  cbn [json.escape]. now rewrite ascii_only_append, ascii_only_escape_char, IH.
Qed.

Lemma ascii_only_basestring s :
  ascii_only (json.encode_basestring_ascii s) = true.
Proof.
  unfold json.encode_basestring_ascii. cbn [ascii_only].
  now rewrite ascii_only_append, ascii_only_escape.
Qed.

Lemma ascii_only_uint u : ascii_only (NilEmpty.string_of_uint u) = true.
Proof. induction u; cbn [NilEmpty.string_of_uint ascii_only]; auto. Qed.

Lemma ascii_only_int_repr z : ascii_only (json.int_repr z) = true.
Proof.
  unfold json.int_repr. destruct (Z.to_int z); cbn [NilEmpty.string_of_int];
    [|cbn [ascii_only]]; now rewrite ?ascii_only_uint.
Qed.

Lemma ascii_only_newline_indent n : ascii_only (json.newline_indent n) = true.
Proof.
  unfold json.newline_indent. cbn [ascii_only].
  induction n as [|n IH]; [reflexivity | exact IH].
Qed.

Lemma ascii_only_concat sep l :
  ascii_only sep = true ->
  Forall (fun s => ascii_only s = true) l ->
  ascii_only (String.concat sep l) = true.
Proof.
  intros Hsep. induction 1 as [|a l Ha Hl IH]; [reflexivity|].
  destruct l as [|b l]; [exact Ha|].
  rewrite concat_cons_cons, !ascii_only_append, Ha, Hsep. exact IH.
Qed.

Lemma ascii_only_iterencode v : forall level,
  ascii_only (json.iterencode level v) = true.
Proof.
  induction v as [ | b | z | s | items IH | entries IH ] using value_induction;
    intros level.
  - reflexivity.
  - destruct b; reflexivity.
  - apply ascii_only_int_repr.
  - apply ascii_only_basestring.
  - destruct items as [|x xs]; [reflexivity|].
    cbn [json.iterencode]. rewrite !ascii_only_append.
    rewrite !ascii_only_newline_indent, ascii_only_concat; [reflexivity | | ].
    + cbn [append ascii_only]. apply ascii_only_newline_indent.
    + apply Forall_map. eapply Forall_impl; [|exact IH]. intros a Ha. apply Ha.
  - destruct entries as [|kv es]; [reflexivity|].
    cbn [json.iterencode]. rewrite !ascii_only_append.
    rewrite !ascii_only_newline_indent, ascii_only_concat; [reflexivity | | ].
    + cbn [append ascii_only]. apply ascii_only_newline_indent.
    + apply Forall_map. eapply Forall_impl; [|exact IH]. intros a Ha. cbn beta.
      rewrite !ascii_only_append, ascii_only_basestring, Ha. reflexivity.
Qed.


(** ** The decoder and the encoder together *)



Lemma generate_inventory_from_parts tf_outputs inventory :
  plain tf_outputs = true ->
  generate_inventory_from tf_outputs = Return inventory ->
  inventory = empty_inventory \/ inventory = initial_inventory \/
  exists name k public_ip private_ip,
    Py.hashable name = Return k /\
    plain public_ip = true /\ plain private_ip = true /\
    inventory = populated_inventory name k (host_record public_ip private_ip name).
Proof.
  intros Hplain. unfold generate_inventory_from.
  destruct (Py.truthy tf_outputs); cbn [negb].
  2: { intros [= <-]. now left. }
  destruct (Py.contains tf_outputs "vm_connection") as [[|]|]; cbn [bind];
    [ | intros [= <-]; right; now left | discriminate ].
  destruct (Py.getitem tf_outputs "vm_connection") as [entry|] eqn:He;
    cbn [bind]; [ | discriminate ].
  apply (getitem_plain _ _ _ Hplain) in He.
  destruct (Py.getitem entry "value") as [vm_conn|] eqn:Hc; cbn [bind];
    [ | discriminate ].
  apply (getitem_plain _ _ _ He) in Hc.
  destruct (Py.get vm_conn "vm_name" (VStr "unknown")) as [vm_name|] eqn:Hn;
    cbn [bind]; [ | discriminate ].
  destruct (Py.get vm_conn "public_ip" (VStr "")) as [public_ip|] eqn:Hpub;
    cbn [bind]; [ | discriminate ].
  apply (get_plain _ _ (VStr "") _ Hc eq_refl) in Hpub.
  destruct (Py.get vm_conn "private_ip" (VStr "")) as [private_ip|] eqn:Hpriv;
    cbn [bind]; [ | discriminate ].
  apply (get_plain _ _ (VStr "") _ Hc eq_refl) in Hpriv.
  destruct (Py.truthy public_ip); [ | intros [= <-]; right; now left ].
  destruct (Py.hashable vm_name) as [k|e] eqn:Hk.
  - rewrite (add_host_returns _ _ public_ip private_ip Hk).
    intros [= <-]. right. right.
    now exists vm_name, k, public_ip, private_ip.
  - rewrite (add_host_raises _ _ public_ip private_ip Hk). discriminate.
Qed.

Lemma dumps_populated_key name k record :
  json.dumps (populated_inventory name k record)
  = json.dumps (populated_inventory name (KStr (json.key_text k)) record).
Proof. reflexivity. Qed.


